(** * The Folders manager of the Box Node SDK (src/managers/folders.ts)

    A shallow embedding of the request-building methods of the [Folders]
    class, and the properties of the outbound requests they produce.

    - JavaScript data is a tree of [value]s; an object is the list of its own
      properties in property order.
    - The objects a caller hands to a method (options, updates, metadata) live
      in a store and are passed by reference ([ARef]), because several methods
      assign to or delete from them before the request is made, and the
      request parameters alias them.
    - A method is a computation over a [world]: the store and the list of
      calls made on the client so far.  A run is one invocation of a method
      up to the settling of its promise, with nothing else interleaved.
    - The client, the URL path builder and the error builder are
      collaborators outside this file of the SDK; they are variables of the
      sections. *)

From Stdlib Require Import ZArith Ascii String List Bool Lia FinFun.
From stdpp Require Import base list strings.
Import ListNotations.

#[local] Set Warnings "-register-all".
Local Open Scope string_scope.
Local Open Scope list_scope.

(** ** JavaScript values *)

Inductive value : Type :=
| VUndefined
| VNull
| VBool (b : bool)
| VNum (n : Z)            (* integer-valued numbers: status codes, counters *)
| VStr (s : string)
| VFunction (name : string)
| VArr (elems : list value)
| VObj (props : list (string * value)).

(** An object: its own enumerable data properties, in the order
    [Object.keys] lists them. *)
Definition obj : Type := list (string * value).

(** ToBoolean. *)
Definition truthy (v : value) : bool :=
  match v with
  | VUndefined | VNull => false
  | VBool b => b
  | VNum n => negb (n =? 0)%Z
  | VStr s => negb (String.eqb s "")
  | VFunction _ | VArr _ | VObj _ => true
  end.

(** [v === n] for a number literal [n]. *)
Definition strict_eq_num (v : value) (n : Z) : bool :=
  match v with
  | VNum m => (m =? n)%Z
  | _ => false
  end.

(** [v === s] for a string [s]. *)
Definition strict_eq_str (v : value) (s : string) : bool :=
  match v with
  | VStr t => String.eqb t s
  | _ => false
  end.

(** ** Own properties *)

Fixpoint obj_get (k : string) (o : obj) : option value :=
  match o with
  | [] => None
  | (k', v) :: o' => if String.eqb k' k then Some v else obj_get k o'
  end.

Definition obj_has (k : string) (o : obj) : bool :=
  match obj_get k o with Some _ => true | None => false end.

(** [o.k]: the property, or [undefined] when [o] has none of that name. *)
Definition obj_read (k : string) (o : obj) : value :=
  match obj_get k o with Some v => v | None => VUndefined end.

(** [delete o.k]. *)
Definition obj_delete (k : string) (o : obj) : obj :=
  List.filter (fun p => negb (String.eqb (fst p) k)) o.

(** Array-index keys ("0", "7", "42": canonical decimal numerals below
    2^32 - 1) are listed before all other keys, in ascending order. *)
Definition digit_of (c : ascii) : option N :=
  let n := N_of_ascii c in
  if ((48 <=? n) && (n <=? 57))%N then Some (n - 48)%N else None.

Fixpoint digits_value (s : string) (acc : N) : option N :=
  match s with
  | EmptyString => Some acc
  | String c s' =>
      match digit_of c with
      | Some d => digits_value s' (10 * acc + d)%N
      | None => None
      end
  end.

Definition array_index (k : string) : option N :=
  match k with
  | EmptyString => None
  | String c rest =>
      if (Ascii.eqb c "0" && negb (String.eqb rest ""))%bool then None
      else if (10 <? String.length k)%nat then None
      else match digits_value k 0 with
           | Some n => if (n <? 4294967295)%N then Some n else None
           | None => None
           end
  end.

(** Overwriting an existing property keeps its place. *)
Fixpoint obj_replace (k : string) (v : value) (o : obj) : obj :=
  match o with
  | [] => []
  | (k', v') :: o' =>
      if String.eqb k' k then (k, v) :: o' else (k', v') :: obj_replace k v o'
  end.

(** A new array-index key goes after the smaller index keys. *)
Fixpoint obj_insert_index (n : N) (k : string) (v : value) (o : obj) : obj :=
  match o with
  | [] => [(k, v)]
  | (k', v') :: o' =>
      match array_index k' with
      | Some m =>
          if (m <? n)%N then (k', v') :: obj_insert_index n k v o'
          else (k, v) :: o
      | None => (k, v) :: o
      end
  end.

(** [o.k = v]. *)
Definition obj_set (k : string) (v : value) (o : obj) : obj :=
  if obj_has k o then obj_replace k v o
  else match array_index k with
       | Some n => obj_insert_index n k v o
       | None => o ++ [(k, v)]
       end.

(** [Object.assign(target, source)] for a source object. *)
Definition obj_assign (target source : obj) : obj :=
  fold_left (fun t p => obj_set (fst p) (snd p) t) source target.

(** [Object.keys(o)]. *)
Definition obj_keys (o : obj) : list string := map fst o.

(** Two property lists that denote the same mapping (JSON objects are
    unordered). *)
Definition same_mapping (o1 o2 : obj) : Prop :=
  forall k, obj_get k o1 = obj_get k o2.

(** ** Property reads on arbitrary values *)

Inductive reason : Type :=
| Thrown (e : value)      (* a value thrown, or a promise's rejection value *)
| TypeError.              (* raised by the runtime *)

(** [v.k] for the data properties this module reads ([id], [etag],
    [collections], [statusCode], [body], [watermark], ...): reading from
    [undefined] or [null] throws, a primitive, array or function has no such
    own property. *)
Definition get_prop (v : value) (k : string) : reason + value :=
  match v with
  | VUndefined | VNull => inl TypeError
  | VObj o => inr (obj_read k o)
  | _ => inr VUndefined
  end.

(** ** Arguments, the store and the calls on the client *)

(** What a caller passes in an options or callback position. *)
Inductive arg : Type :=
| AUndefined
| ANull
| AFunction (f : string)    (* [typeof a === 'function']: a callback, which
                               carries no data property of its own *)
| ARef (l : nat).           (* an object of the store *)

Definition arg_truthy (a : arg) : bool :=
  match a with
  | AUndefined | ANull => false
  | AFunction _ | ARef _ => true
  end.

Definition is_function (a : arg) : bool :=
  match a with AFunction _ => true | _ => false end.

Inductive method : Type := GET | POST | PUT | DELETE.

(** [this.client.get] itself, or [this.client.wrapWithDefaultHandler(...)]. *)
Inductive entry : Type := Raw | DefaultHandler.

(** A field of the [params] object: a reference shared with the caller, or
    a value built by the method. *)
Inductive slot : Type :=
| Shared (a : arg)
| Own (v : value).

Record params : Type := mkParams {
  qs : option slot;
  body : option slot;
  headers : option slot
}.

Definition no_params : params := mkParams None None None.
Definition set_qs (s : slot) (p : params) : params :=
  mkParams (Some s) (body p) (headers p).
Definition set_body (s : slot) (p : params) : params :=
  mkParams (qs p) (Some s) (headers p).
Definition set_headers (s : slot) (p : params) : params :=
  mkParams (qs p) (body p) (Some s).

(** A call as the client receives it: the fields of [params] read at the
    moment of the call ([None]: [params] has no such key). *)
Record call : Type := mkCall {
  call_entry : entry;
  call_method : method;
  call_path : string;
  call_qs : option value;
  call_body : option value;
  call_headers : option value;
  call_callback : arg
}.

(** How the client settles a call. Through the default handler a fulfilled
    call carries the response body; a raw call carries the response object
    [{statusCode, body, ...}]. *)
Inductive reply : Type :=
| Fulfilled (v : value)
| Failed (err : value).

Record world : Type := mkWorld {
  heap : list obj;
  sent : list call
}.

Inductive outcome (A : Type) : Type :=
| Resolved (a : A)
| Rejected (e : reason)
| Stuck.                 (* a reference to no object: not a JavaScript state *)
Arguments Resolved {A} a.
Arguments Rejected {A} e.
Arguments Stuck {A}.

Definition M (A : Type) : Type := world -> outcome A * world.

Definition ret {A} (a : A) : M A := fun w => (Resolved a, w).
Definition throw {A} (e : reason) : M A := fun w => (Rejected e, w).

Definition bind {A B} (m : M A) (k : A -> M B) : M B :=
  fun w =>
    match m w with
    | (Resolved a, w') => k a w'
    | (Rejected e, w') => (Rejected e, w')
    | (Stuck, w') => (Stuck, w')
    end.

(** [promise.catch(handler)]. *)
Definition catch {A} (m : M A) (handler : reason -> M A) : M A :=
  fun w =>
    match m w with
    | (Rejected e, w') => handler e w'
    | r => r
    end.

Declare Scope js_scope.
Delimit Scope js_scope with js.
Notation "'let!' x ':=' c1 'in' c2" := (bind c1 (fun x => c2))
  (at level 10, x name, c1 at level 100, c2 at level 200) : js_scope.
Notation "'do!' c1 'in' c2" := (bind c1 (fun _ => c2))
  (at level 10, c1 at level 100, c2 at level 200) : js_scope.
Local Open Scope js_scope.

(** Lifting a property read that may throw. *)
Definition lift {A} (r : reason + A) : M A :=
  match r with
  | inl e => throw e
  | inr a => ret a
  end.

Definition read (l : nat) : M obj :=
  fun w =>
    match heap w !! l with
    | Some o => (Resolved o, w)
    | None => (Stuck, w)
    end.

Definition write (l : nat) (o : obj) : M unit :=
  fun w =>
    match heap w !! l with
    | Some _ => (Resolved tt, mkWorld (<[l := o]> (heap w)) (sent w))
    | None => (Stuck, w)
    end.

(** An object literal evaluated by the method: a new object of the store. *)
Definition alloc (o : obj) : M arg :=
  fun w => (Resolved (ARef (length (heap w))), mkWorld (heap w ++ [o]) (sent w)).

(** [a.k] *)
Definition arg_get (a : arg) (k : string) : M value :=
  match a with
  | AUndefined | ANull => throw TypeError
  | AFunction _ => ret VUndefined
  | ARef l => let! o := read l in ret (obj_read k o)
  end.

(** [a && a.k] *)
Definition arg_and_get (a : arg) (k : string) : M value :=
  match a with
  | AUndefined => ret VUndefined
  | ANull => ret VNull
  | _ => arg_get a k
  end.

(** [a.k = v] *)
Definition arg_set (a : arg) (k : string) (v : value) : M unit :=
  match a with
  | AUndefined | ANull => throw TypeError
  | AFunction _ => ret tt
  | ARef l => let! o := read l in write l (obj_set k v o)
  end.

(** [delete a.k] *)
Definition arg_delete (a : arg) (k : string) : M unit :=
  match a with
  | AUndefined | ANull => throw TypeError
  | AFunction _ => ret tt
  | ARef l => let! o := read l in write l (obj_delete k o)
  end.

(** The value a reference denotes when the client reads it. *)
Definition deref (h : list obj) (a : arg) : option value :=
  match a with
  | AUndefined => Some VUndefined
  | ANull => Some VNull
  | AFunction f => Some (VFunction f)
  | ARef l => VObj <$> h !! l
  end.

Definition snapshot (h : list obj) (s : option slot) : option (option value) :=
  match s with
  | None => Some None
  | Some (Own v) => Some (Some v)
  | Some (Shared a) => Some <$> deref h a
  end.

Definition settle (r : reply) : outcome value :=
  match r with
  | Fulfilled v => Resolved v
  | Failed err => Rejected (Thrown err)
  end.

Definition BASE_PATH : string := "/folders".
Definition FOLDER_LOCK : string := "/folder_locks".
Definition WATERMARK_SUBRESOURCE : string := "/watermark".

(** Array methods whose callback may throw. *)
Fixpoint array_map (f : value -> reason + value) (l : list value)
  : reason + list value :=
  match l with
  | [] => inr []
  | x :: l' =>
      match f x with
      | inl e => inl e
      | inr y =>
          match array_map f l' with
          | inl e => inl e
          | inr ys => inr (y :: ys)
          end
      end
  end.

Fixpoint array_find (p : value -> reason + bool) (l : list value)
  : reason + value :=
  match l with
  | [] => inr VUndefined
  | x :: l' =>
      match p x with
      | inl e => inl e
      | inr true => inr x
      | inr false => array_find p l'
      end
  end.

Fixpoint array_filter (p : value -> reason + bool) (l : list value)
  : reason + list value :=
  match l with
  | [] => inr []
  | x :: l' =>
      match p x with
      | inl e => inl e
      | inr b =>
          match array_filter p l' with
          | inl e => inl e
          | inr ys => inr (if b then x :: ys else ys)
          end
      end
  end.

(** [.map], [.find], [.filter] exist on arrays only. *)
Definition as_array (v : value) : reason + list value :=
  match v with
  | VArr l => inr l
  | _ => inl TypeError
  end.

(** [a || b] *)
Definition or_else (a b : value) : value := if truthy a then a else b.

(** [c => ({ id: c.id })] *)
Definition id_only (c : value) : reason + value :=
  match get_prop c "id" with
  | inl e => inl e
  | inr i => inr (VObj [("id", i)])
  end.

(** [c => c.id === collectionID] and [c => c.id !== collectionID] *)
Definition id_is (collectionID : string) (c : value) : reason + bool :=
  match get_prop c "id" with
  | inl e => inl e
  | inr i => inr (strict_eq_str i collectionID)
  end.

Definition id_is_not (collectionID : string) (c : value) : reason + bool :=
  match get_prop c "id" with
  | inl e => inl e
  | inr i => inr (negb (strict_eq_str i collectionID))
  end.

(** [err.k] for the value a promise was rejected with. *)
Definition reason_prop (err : reason) (k : string) : reason + value :=
  match err with
  | Thrown e => get_prop e k
  | TypeError => inr VUndefined
  end.

(** [Object.keys(a)] *)
Definition object_keys (a : arg) : M (list string) :=
  match a with
  | AUndefined | ANull => throw TypeError
  | AFunction _ => ret []
  | ARef l => let! o := read l in ret (obj_keys o)
  end.

(** [Object.assign(target, source)] for a target built by the method. *)
Definition object_assign (target : obj) (source : arg) : M obj :=
  match source with
  | AUndefined | ANull | AFunction _ => ret target
  | ARef l => let! o := read l in ret (obj_assign target o)
  end.

(** [keys.map(f)] for a callback that reads the store. *)
Fixpoint map_keys {A} (f : string -> M A) (keys : list string) : M (list A) :=
  match keys with
  | [] => ret []
  | k :: keys' =>
      let! x := f k in
      let! xs := map_keys f keys' in
      ret (x :: xs)
  end.

(** [promise.asCallback(callback)]: the callback, when given, is told the
    outcome by the promise library; the promise settles as before. *)
Definition asCallback {A} (m : M A) (callback : arg) : M A := m.

(** ** The manager *)

Module Folders.
Section Manager.

(** [urlPath(...)] of util/url-path, [errors.buildUnexpectedResponseError]
    of util/errors, and the HTTP client of [this.client]: how it settles a
    call, given the calls made before. *)
Variable urlPath : list string -> string.
Variable buildUnexpectedResponseError : value -> value.
Variable client : list call -> call -> reply.

(** A call on the client: the fields of [params] are read from the store as
    they are at this moment, the call is recorded, and the client settles
    it. *)
Definition request (e : entry) (m : method) (apiPath : string)
    (p : params) (callback : arg) : M value :=
  fun w =>
    match snapshot (heap w) (qs p),
          snapshot (heap w) (body p),
          snapshot (heap w) (headers p) with
    | Some q, Some b, Some h =>
        let c := mkCall e m apiPath q b h callback in
        (settle (client (sent w) c), mkWorld (heap w) (sent w ++ [c]))
    | _, _, _ => (Stuck, w)
    end.

(** What a call does to the world: it is recorded and the client settles
    it. *)
Definition settled_by (c : call) (h : list obj) (w : world)
  : outcome value * world :=
  (settle (client (sent w) c), mkWorld h (sent w ++ [c])).

Definition get (folderID : string) (options callback : arg) : M value :=
  let params := set_qs (Shared options) no_params in
  let apiPath := urlPath [BASE_PATH; folderID] in
  request DefaultHandler GET apiPath params callback.

Definition copy (folderID newParentID : string) (options callback : arg)
  : M value :=
  let! shuffled :=
    (if is_function options
     then let! empty := alloc [] in ret (empty, options)
     else ret (options, callback)) in
  let options := fst shuffled in
  let callback := snd shuffled in
  let! options := (if arg_truthy options then ret options else alloc []) in
  do! arg_set options "parent" (VObj [("id", VStr newParentID)]) in
  let params := set_body (Shared options) no_params in
  let apiPath := urlPath [BASE_PATH; folderID; "/copy"] in
  request DefaultHandler POST apiPath params callback.

Definition update (folderID : string) (updates callback : arg) : M value :=
  let params := set_body (Shared updates) no_params in
  let! cond := arg_and_get updates "etag" in
  let! params :=
    (if truthy cond then
       let! etag := arg_get updates "etag" in
       let params := set_headers (Own (VObj [("If-Match", etag)])) params in
       do! arg_delete updates "etag" in
       ret params
     else ret params) in
  let apiPath := urlPath [BASE_PATH; folderID] in
  request DefaultHandler PUT apiPath params callback.

Definition addToCollection (folderID collectionID : string) (callback : arg)
  : M value :=
  asCallback
    (let! query := alloc [("fields", VStr "collections")] in
     let! data := get folderID query AUndefined in
     let! field := lift (get_prop data "collections") in
     let collections := or_else field (VArr []) in
     let! elems := lift (as_array collections) in
     let! collections := lift (array_map id_only elems) in
     let! found := lift (array_find (id_is collectionID) collections) in
     let collections :=
       if negb (truthy found)
       then collections ++ [VObj [("id", VStr collectionID)]]
       else collections in
     let! updates := alloc [("collections", VArr collections)] in
     update folderID updates AUndefined)
    callback.

Definition removeFromCollection (folderID collectionID : string)
    (callback : arg) : M value :=
  asCallback
    (let! query := alloc [("fields", VStr "collections")] in
     let! data := get folderID query AUndefined in
     let! field := lift (get_prop data "collections") in
     let collections := or_else field (VArr []) in
     let! elems := lift (as_array collections) in
     let! mapped := lift (array_map id_only elems) in
     let! collections := lift (array_filter (id_is_not collectionID) mapped) in
     let! updates := alloc [("collections", VArr collections)] in
     update folderID updates AUndefined)
    callback.

Definition delete (folderID : string) (options callback : arg) : M value :=
  let params := set_qs (Shared options) no_params in
  let! cond := arg_and_get options "etag" in
  let! params :=
    (if truthy cond then
       let! etag := arg_get options "etag" in
       let params := set_headers (Own (VObj [("If-Match", etag)])) params in
       do! arg_delete options "etag" in
       ret params
     else ret params) in
  let apiPath := urlPath [BASE_PATH; folderID] in
  request DefaultHandler DELETE apiPath params callback.

Definition addMetadata (folderID scope template : string)
    (data callback : arg) : M value :=
  let apiPath := urlPath [BASE_PATH; folderID; "metadata"; scope; template] in
  let params := set_body (Shared data) no_params in
  request DefaultHandler POST apiPath params callback.

(** [patch] is forwarded as it is given: it is taken by content. *)
Definition updateMetadata (folderID scope template : string)
    (patch : value) (callback : arg) : M value :=
  let apiPath := urlPath [BASE_PATH; folderID; "metadata"; scope; template] in
  let params :=
    set_headers
      (Own (VObj [("Content-Type", VStr "application/json-patch+json")]))
      (set_body (Own patch) no_params) in
  request DefaultHandler PUT apiPath params callback.

(** [key => ({ op: 'add', path: `/${key}`, value: metadata[key] })] *)
Definition patch_entry (key : string) (v : value) : value :=
  VObj [("op", VStr "add"); ("path", VStr ("/" +:+ key)); ("value", v)].

Definition setMetadata (folderID scope template : string)
    (metadata callback : arg) : M value :=
  asCallback
    (catch (addMetadata folderID scope template metadata AUndefined)
       (fun err =>
          let! code := lift (reason_prop err "statusCode") in
          if negb (strict_eq_num code 409) then throw err
          else
            let! keys := object_keys metadata in
            let! updates :=
              map_keys
                (fun key =>
                   let! v := arg_get metadata key in ret (patch_entry key v))
                keys in
            updateMetadata folderID scope template (VArr updates) AUndefined))
    callback.

Definition restoreFromTrash (folderID : string) (options callback : arg)
  : M value :=
  let! cond := arg_and_get options "parent_id" in
  do! (if truthy cond then
         let! parent_id := arg_get options "parent_id" in
         do! arg_set options "parent" (VObj [("id", parent_id)]) in
         arg_delete options "parent_id"
       else ret tt) in
  let apiPath := urlPath [BASE_PATH; folderID] in
  let params :=
    set_body (if arg_truthy options then Shared options else Own (VObj []))
      no_params in
  request DefaultHandler POST apiPath params callback.

Definition deletePermanently (folderID : string) (options callback : arg)
  : M value :=
  let! shuffled :=
    (if is_function options
     then let! empty := alloc [] in ret (empty, options)
     else ret (options, callback)) in
  let options := fst shuffled in
  let callback := snd shuffled in
  let params := no_params in
  let! cond := arg_and_get options "etag" in
  let! params :=
    (if truthy cond then
       let! etag := arg_get options "etag" in
       ret (set_headers (Own (VObj [("If-Match", etag)])) params)
     else ret params) in
  let apiPath := urlPath [BASE_PATH; folderID; "/trash"] in
  request DefaultHandler DELETE apiPath params callback.

Definition getWatermark (folderID : string) (options callback : arg)
  : M value :=
  let apiPath := urlPath [BASE_PATH; folderID; WATERMARK_SUBRESOURCE] in
  let params := set_qs (Shared options) no_params in
  asCallback
    (let! response := request Raw GET apiPath params AUndefined in
     let! code := lift (get_prop response "statusCode") in
     if negb (strict_eq_num code 200)
     then throw (Thrown (buildUnexpectedResponseError response))
     else
       let! body := lift (get_prop response "body") in
       lift (get_prop body "watermark"))
    callback.

Definition applyWatermark (folderID : string) (options callback : arg)
  : M value :=
  let apiPath := urlPath [BASE_PATH; folderID; WATERMARK_SUBRESOURCE] in
  let watermark := [("imprint", VStr "default")] in
  let! watermark := object_assign watermark options in
  let params :=
    set_body (Own (VObj [("watermark", VObj watermark)])) no_params in
  request DefaultHandler PUT apiPath params callback.

(** A call made with [null] in place of the params object: it carries no
    query, no body and no headers. *)
Definition request_without_params (e : entry) (m : method)
    (apiPath : string) (callback : arg) : M value :=
  request e m apiPath no_params callback.

Definition getItems (folderID : string) (options callback : arg) : M value :=
  let params := set_qs (Shared options) no_params in
  let apiPath := urlPath [BASE_PATH; folderID; "/items"] in
  request DefaultHandler GET apiPath params callback.

Definition getCollaborations (folderID : string) (options callback : arg)
  : M value :=
  let params := set_qs (Shared options) no_params in
  let apiPath := urlPath [BASE_PATH; folderID; "/collaborations"] in
  request DefaultHandler GET apiPath params callback.

Definition create (parentFolderID name : string) (callback : arg) : M value :=
  let params :=
    set_body
      (Own (VObj [("name", VStr name);
                  ("parent", VObj [("id", VStr parentFolderID)])]))
      no_params in
  request DefaultHandler POST BASE_PATH params callback.

Definition move (folderID newParentID : string) (callback : arg) : M value :=
  let params :=
    set_body (Own (VObj [("parent", VObj [("id", VStr newParentID)])]))
      no_params in
  let apiPath := urlPath [BASE_PATH; folderID] in
  request DefaultHandler PUT apiPath params callback.

Definition getAllMetadata (folderID : string) (callback : arg) : M value :=
  let apiPath := urlPath [BASE_PATH; folderID; "metadata"] in
  request_without_params DefaultHandler GET apiPath callback.

Definition getMetadata (folderID scope template : string) (callback : arg)
  : M value :=
  let apiPath := urlPath [BASE_PATH; folderID; "metadata"; scope; template] in
  request_without_params DefaultHandler GET apiPath callback.

Definition deleteMetadata (folderID scope template : string) (callback : arg)
  : M value :=
  let apiPath := urlPath [BASE_PATH; folderID; "metadata"; scope; template] in
  request_without_params DefaultHandler DELETE apiPath callback.

Definition getTrashedFolder (folderID : string) (options callback : arg)
  : M value :=
  let params := set_qs (Shared options) no_params in
  let apiPath := urlPath [BASE_PATH; folderID; "trash"] in
  request DefaultHandler GET apiPath params callback.

Definition removeWatermark (folderID : string) (callback : arg) : M value :=
  let apiPath := urlPath [BASE_PATH; folderID; WATERMARK_SUBRESOURCE] in
  request_without_params DefaultHandler DELETE apiPath callback.

Definition lock (folderID : string) (callback : arg) : M value :=
  let params :=
    set_body
      (Own (VObj [("folder",
                   VObj [("type", VStr "folder"); ("id", VStr folderID)]);
                  ("locked_operations",
                   VObj [("move", VBool true); ("delete", VBool true)])]))
      no_params in
  request DefaultHandler POST FOLDER_LOCK params callback.

Definition getLocks (folderID : string) (callback : arg) : M value :=
  let params :=
    set_qs (Own (VObj [("folder_id", VStr folderID)])) no_params in
  request DefaultHandler GET FOLDER_LOCK params callback.

Definition deleteLock (folderLockID : string) (callback : arg) : M value :=
  let apiPath := urlPath [FOLDER_LOCK; folderLockID] in
  request_without_params DefaultHandler DELETE apiPath callback.


End Manager.
End Folders.

(** ** Sample collaborators, for running the manager on concrete inputs *)

(** A path builder: the segments, without their leading slash, joined by
    slashes. *)
Definition strip_slash (segment : string) : string :=
  match segment with
  | String c rest => if Ascii.eqb c "/" then rest else segment
  | EmptyString => segment
  end.

Definition join_segments (segments : list string) : string :=
  "/" +:+ String.concat "/" (map strip_slash segments).

Definition sample_unexpected_response (response : value) : value :=
  VObj [("message", VStr "Unexpected API Response"); ("response", response)].

Definition always_ok (history : list call) (c : call) : reply :=
  Fulfilled (VObj []).

(** A client that answers every POST with a 409 conflict. *)
Definition conflict_on_post (history : list call) (c : call) : reply :=
  match call_method c with
  | POST => Failed (VObj [("statusCode", VNum 409)])
  | _ => Fulfilled (VObj [("done", VBool true)])
  end.

(** A client that answers every POST with the given error. *)
Definition fail_on_post (err : value) (history : list call) (c : call)
  : reply :=
  match call_method c with
  | POST => Failed err
  | _ => Fulfilled (VObj [])
  end.

(** A client that answers every call with one response or folder. *)
Definition always_fulfil (v : value) (history : list call) (c : call)
  : reply :=
  Fulfilled v.

(** A client that rejects every call with one error. *)
Definition always_fail (err : value) (history : list call) (c : call)
  : reply :=
  Failed err.

(** [v.id === collectionID], and [false] where [v.id] cannot be read. *)
Definition has_id (collectionID : string) (v : value) : bool :=
  match get_prop v "id" with
  | inr i => strict_eq_str i collectionID
  | inl _ => false
  end.

(** [undefined] or [null]. *)
Definition nullish (v : value) : bool :=
  match v with
  | VUndefined | VNull => true
  | _ => false
  end.


(** ** Properties of objects *)

Lemma obj_get_app k (o1 o2 : obj) :
  obj_get k (o1 ++ o2) =
  match obj_get k o1 with Some v => Some v | None => obj_get k o2 end.
Proof.
  induction o1 as [|[k1 v1] o1 IH]; simpl; [reflexivity|].
  destruct (String.eqb k1 k); [reflexivity|apply IH].
Qed.

Lemma obj_get_delete_eq k (o : obj) : obj_get k (obj_delete k o) = None.
Proof.
  induction o as [|[k1 v1] o IH]; simpl; [reflexivity|].
  destruct (String.eqb k1 k) eqn:E; simpl; [apply IH|].
  rewrite E. apply IH.
Qed.

Lemma obj_get_delete_ne k k' (o : obj) :
  k' <> k -> obj_get k' (obj_delete k o) = obj_get k' o.
Proof.
  intros Hne. induction o as [|[k1 v1] o IH]; simpl; [reflexivity|].
  destruct (String.eqb_spec k1 k) as [->|Hk]; simpl.
  - destruct (String.eqb_spec k k'); [congruence|apply IH].
  - destruct (String.eqb k1 k'); [reflexivity|apply IH].
Qed.

Lemma obj_delete_absent k (o : obj) :
  obj_get k o = None -> obj_delete k o = o.
Proof.
  induction o as [|[k1 v1] o IH]; simpl; [reflexivity|].
  destruct (String.eqb k1 k) eqn:E; [discriminate|].
  intros H. simpl. f_equal. apply IH, H.
Qed.

Lemma obj_get_replace_eq k v (o : obj) :
  obj_has k o = true -> obj_get k (obj_replace k v o) = Some v.
Proof.
  unfold obj_has. induction o as [|[k1 v1] o IH]; simpl; [discriminate|].
  destruct (String.eqb k1 k) eqn:E; simpl.
  - rewrite String.eqb_refl. reflexivity.
  - rewrite E. apply IH.
Qed.

Lemma obj_get_replace_ne k k' v (o : obj) :
  k' <> k -> obj_get k' (obj_replace k v o) = obj_get k' o.
Proof.
  intros Hne. induction o as [|[k1 v1] o IH]; simpl; [reflexivity|].
  destruct (String.eqb_spec k1 k) as [->|Hk]; simpl.
  - destruct (String.eqb_spec k k'); [congruence|reflexivity].
  - destruct (String.eqb k1 k'); [reflexivity|apply IH].
Qed.

Lemma obj_get_insert_index_eq n k v (o : obj) :
  obj_get k o = None -> obj_get k (obj_insert_index n k v o) = Some v.
Proof.
  induction o as [|[k1 v1] o IH]; simpl.
  - rewrite String.eqb_refl. reflexivity.
  - destruct (String.eqb k1 k) eqn:E; [discriminate|]. intros H.
    destruct (array_index k1) as [m|]; [destruct (m <? n)%N|]; simpl;
      rewrite ?E, ?String.eqb_refl; auto.
Qed.

Lemma obj_get_insert_index_ne n k k' v (o : obj) :
  k' <> k -> obj_get k' (obj_insert_index n k v o) = obj_get k' o.
Proof.
  intros Hne.
  assert (Hk : String.eqb k k' = false)
    by (apply String.eqb_neq; congruence).
  induction o as [|[k1 v1] o IH]; simpl.
  - rewrite Hk. reflexivity.
  - destruct (array_index k1) as [m|]; [destruct (m <? n)%N|]; simpl;
      rewrite ?Hk; try reflexivity.
    destruct (String.eqb k1 k'); [reflexivity|apply IH].
Qed.

(** Reading back an assigned property. *)
Lemma obj_get_set_eq k v (o : obj) : obj_get k (obj_set k v o) = Some v.
Proof.
  unfold obj_set. destruct (obj_has k o) eqn:E.
  - apply obj_get_replace_eq, E.
  - assert (H : obj_get k o = None)
      by (unfold obj_has in E; destruct (obj_get k o); [discriminate|reflexivity]).
    destruct (array_index k).
    + apply obj_get_insert_index_eq, H.
    + rewrite obj_get_app, H. simpl. rewrite String.eqb_refl. reflexivity.
Qed.

(** An assignment leaves the other properties alone. *)
Lemma obj_get_set_ne k k' v (o : obj) :
  k' <> k -> obj_get k' (obj_set k v o) = obj_get k' o.
Proof.
  intros Hne. unfold obj_set. destruct (obj_has k o).
  - apply obj_get_replace_ne, Hne.
  - destruct (array_index k).
    + apply obj_get_insert_index_ne, Hne.
    + rewrite obj_get_app. destruct (obj_get k' o); [reflexivity|].
      simpl. destruct (String.eqb_spec k k'); [congruence|reflexivity].
Qed.

(** A key that is not an array index is added last. *)
Lemma obj_set_new k v (o : obj) :
  obj_get k o = None -> array_index k = None -> obj_set k v o = o ++ [(k, v)].
Proof.
  intros H Hi. unfold obj_set, obj_has. rewrite H, Hi. reflexivity.
Qed.


Example array_index_examples :
  array_index "0" = Some 0%N
  /\ array_index "42" = Some 42%N
  /\ array_index "4294967294" = Some 4294967294%N
  /\ array_index "4294967295" = None
  /\ array_index "007" = None
  /\ array_index "imprint" = None
  /\ array_index "" = None.
Proof. repeat split. Qed.

Example obj_set_order :
  let o := [("2", VNum 2); ("imprint", VStr "default")] in
  obj_set "parent" VNull o
    = [("2", VNum 2); ("imprint", VStr "default"); ("parent", VNull)]
  /\ obj_set "imprint" VNull o = [("2", VNum 2); ("imprint", VNull)]
  /\ obj_set "7" VNull o
    = [("2", VNum 2); ("7", VNull); ("imprint", VStr "default")]
  /\ obj_set "1" VNull o
    = [("1", VNull); ("2", VNum 2); ("imprint", VStr "default")].
Proof. repeat split. Qed.

Lemma obj_get_not_key k (o : obj) : ~ In k (obj_keys o) -> obj_get k o = None.
Proof.
  induction o as [|[k1 v1] o IH]; simpl; [reflexivity|].
  intros Hnot. destruct (String.eqb_spec k1 k) as [->|Hk].
  - exfalso. apply Hnot. left. reflexivity.
  - apply IH. intros Hin. apply Hnot. right. exact Hin.
Qed.

(** After [Object.assign(target, source)] a key of the source has the
    source's value, and any other key has the target's. *)
Lemma obj_get_assign k (source : obj) :
  List.NoDup (obj_keys source) ->
  forall target : obj,
    obj_get k (obj_assign target source) =
    match obj_get k source with
    | Some v => Some v
    | None => obj_get k target
    end.
Proof.
  unfold obj_assign.
  induction source as [|[k1 v1] source IH]; simpl; intros Hnd target;
    [reflexivity|].
  inversion Hnd as [|? ? Hnot Hnd']; subst.
  rewrite (IH Hnd'). destruct (String.eqb_spec k1 k) as [->|Hk].
  - rewrite (obj_get_not_key _ _ Hnot). apply obj_get_set_eq.
  - destruct (obj_get k source); [reflexivity|].
    apply obj_get_set_ne. congruence.
Qed.

(** ** Properties of the store *)

Lemma lookup_written (h : list obj) l o o' :
  h !! l = Some o -> <[l := o']> h !! l = Some o'.
Proof.
  intros H. apply list_lookup_insert_eq. eapply lookup_lt_Some, H.
Qed.

Lemma lookup_alloc (h : list obj) (o : obj) : (h ++ [o]) !! length h = Some o.
Proof.
  rewrite lookup_app_r by lia. rewrite Nat.sub_diag. reflexivity.
Qed.

Lemma bind_resolved {A B} (m : M A) (k : A -> M B) w a w' :
  m w = (Resolved a, w') -> bind m k w = k a w'.
Proof. intros H. unfold bind. rewrite H. reflexivity. Qed.

Lemma arg_get_ref w l o k :
  heap w !! l = Some o -> arg_get (ARef l) k w = (Resolved (obj_read k o), w).
Proof. intros H. unfold arg_get, bind, read, ret. rewrite H. reflexivity. Qed.

Lemma arg_and_get_ref w l o k :
  heap w !! l = Some o ->
  arg_and_get (ARef l) k w = (Resolved (obj_read k o), w).
Proof. apply arg_get_ref. Qed.

Lemma arg_set_ref w l o k v :
  heap w !! l = Some o ->
  arg_set (ARef l) k v w =
  (Resolved tt, mkWorld (<[l := obj_set k v o]> (heap w)) (sent w)).
Proof.
  intros H. unfold arg_set, bind, read, write. rewrite H. cbn. rewrite H.
  reflexivity.
Qed.

Lemma arg_delete_ref w l o k :
  heap w !! l = Some o ->
  arg_delete (ARef l) k w =
  (Resolved tt, mkWorld (<[l := obj_delete k o]> (heap w)) (sent w)).
Proof.
  intros H. unfold arg_delete, bind, read, write. rewrite H. cbn. rewrite H.
  reflexivity.
Qed.

Lemma obj_read_some k (o : obj) v : obj_get k o = Some v -> obj_read k o = v.
Proof. unfold obj_read. intros ->. reflexivity. Qed.

Lemma obj_read_none k (o : obj) : obj_get k o = None -> obj_read k o = VUndefined.
Proof. unfold obj_read. intros ->. reflexivity. Qed.

(** ** Properties of the manager *)

Section Properties.

Variable urlPath : list string -> string.
Variable buildUnexpectedResponseError : value -> value.
Variable client : list call -> call -> reply.

Local Abbreviation request := (Folders.request client).
Local Abbreviation settled_by := (Folders.settled_by client).
Local Abbreviation get := (Folders.get urlPath client).
Local Abbreviation copy := (Folders.copy urlPath client).
Local Abbreviation update := (Folders.update urlPath client).
Local Abbreviation delete := (Folders.delete urlPath client).
Local Abbreviation addToCollection := (Folders.addToCollection urlPath client).
Local Abbreviation removeFromCollection :=
  (Folders.removeFromCollection urlPath client).
Local Abbreviation addMetadata := (Folders.addMetadata urlPath client).
Local Abbreviation updateMetadata := (Folders.updateMetadata urlPath client).
Local Abbreviation setMetadata := (Folders.setMetadata urlPath client).
Local Abbreviation restoreFromTrash := (Folders.restoreFromTrash urlPath client).
Local Abbreviation deletePermanently := (Folders.deletePermanently urlPath client).
Local Abbreviation getWatermark :=
  (Folders.getWatermark urlPath buildUnexpectedResponseError client).
Local Abbreviation applyWatermark := (Folders.applyWatermark urlPath client).

Lemma request_at w e m apiPath p callback q b hd :
  snapshot (heap w) (qs p) = Some q ->
  snapshot (heap w) (body p) = Some b ->
  snapshot (heap w) (headers p) = Some hd ->
  request e m apiPath p callback w =
  settled_by (mkCall e m apiPath q b hd callback) (heap w) w.
Proof.
  intros Hq Hb Hh. unfold Folders.request. rewrite Hq, Hb, Hh. reflexivity.
Qed.

Lemma snapshot_ref (h : list obj) l o :
  h !! l = Some o -> snapshot h (Some (Shared (ARef l))) = Some (Some (VObj o)).
Proof. intros H. unfold snapshot, deref. rewrite H. reflexivity. Qed.

Ltac conjuncts := repeat match goal with |- _ /\ _ => split end.

(** Settling a call whose parameters are known. *)
Ltac send :=
  erewrite request_at;
  [ reflexivity
  | first [ reflexivity | eapply snapshot_ref; simpl; eassumption ] .. ].

(** C3 (amended). [update] (on its updates body) and [delete] (on its options
    query): when the input has an [etag] key with a truthy value, the request
    carries the header [If-Match] with that value, and the body (for
    [update]) or query (for [delete]) is the input without its [etag] key;
    when the input has no [etag] key, or one with a falsy value, no header is
    sent and the input is forwarded as it is. *)
Theorem update_delete_if_match folderID l (o : obj) callback w :
  heap w !! l = Some o ->
  let path := urlPath [BASE_PATH; folderID] in
  let put b hd :=
    mkCall DefaultHandler PUT path None (Some (VObj b)) hd callback in
  let del q hd :=
    mkCall DefaultHandler DELETE path (Some (VObj q)) None hd callback in
  let stripped := obj_delete "etag" o in
  (forall etag,
     obj_get "etag" o = Some etag -> truthy etag = true ->
     let if_match := Some (VObj [("If-Match", etag)]) in
     update folderID (ARef l) callback w =
       settled_by (put stripped if_match) (<[l := stripped]> (heap w)) w
     /\ delete folderID (ARef l) callback w =
       settled_by (del stripped if_match) (<[l := stripped]> (heap w)) w
     /\ obj_get "etag" stripped = None)
  /\ (obj_get "etag" o = None \/
      (exists etag, obj_get "etag" o = Some etag /\ truthy etag = false) ->
      update folderID (ARef l) callback w = settled_by (put o None) (heap w) w
      /\ delete folderID (ARef l) callback w =
         settled_by (del o None) (heap w) w).
Proof.
  intros Hl path put del stripped. split.
  - intros etag He Ht if_match.
    pose proof (obj_read_some _ _ _ He) as Hr.
    assert (Hw : <[l := obj_delete "etag" o]> (heap w) !! l
                 = Some (obj_delete "etag" o)) by (eapply lookup_written, Hl).
    conjuncts.
    + unfold Folders.update, bind.
      rewrite (arg_and_get_ref _ _ _ _ Hl), Hr, Ht.
      rewrite (arg_get_ref _ _ _ _ Hl), (arg_delete_ref _ _ _ _ Hl), Hr.
      unfold ret. send.
    + unfold Folders.delete, bind.
      rewrite (arg_and_get_ref _ _ _ _ Hl), Hr, Ht.
      rewrite (arg_get_ref _ _ _ _ Hl), (arg_delete_ref _ _ _ _ Hl), Hr.
      unfold ret. send.
    + apply obj_get_delete_eq.
  - intros Hfalsy.
    assert (Ht : truthy (obj_read "etag" o) = false).
    { destruct Hfalsy as [Hn|[etag [He Ht]]].
      - rewrite (obj_read_none _ _ Hn). reflexivity.
      - rewrite (obj_read_some _ _ _ He). exact Ht. }
    split.
    + unfold Folders.update, bind.
      rewrite (arg_and_get_ref _ _ _ _ Hl), Ht. unfold ret.
      send.
    + unfold Folders.delete, bind.
      rewrite (arg_and_get_ref _ _ _ _ Hl), Ht. unfold ret.
      send.
Qed.


(** C4 (amended). [copy] and [delete] change the caller's options object in
    place: after [copy] it has [parent] set to [{id: newParentID}], after
    [delete] its [etag] key is gone when the value was truthy (and the object
    is as it was otherwise).  [deletePermanently] leaves the caller's options
    object, and the rest of the store, as they were. *)
Theorem options_object_after_call folderID newParentID l (o : obj) callback w :
  heap w !! l = Some o ->
  let parent := VObj [("id", VStr newParentID)] in
  heap (snd (copy folderID newParentID (ARef l) callback w))
    = <[l := obj_set "parent" parent o]> (heap w)
  /\ obj_get "parent" (obj_set "parent" parent o) = Some parent
  /\ heap (snd (delete folderID (ARef l) callback w))
    = (if truthy (obj_read "etag" o)
       then <[l := obj_delete "etag" o]> (heap w)
       else heap w)
  /\ heap (snd (deletePermanently folderID (ARef l) callback w)) = heap w.
Proof.
  intros Hl parent. conjuncts.
  - unfold Folders.copy, bind, ret. cbn [is_function arg_truthy fst snd].
    rewrite (arg_set_ref _ _ _ _ _ Hl).
    assert (Hw : <[l := obj_set "parent" parent o]> (heap w) !! l
                 = Some (obj_set "parent" parent o))
      by (eapply lookup_written, Hl).
    send.
  - apply obj_get_set_eq.
  - unfold Folders.delete, bind.
    rewrite (arg_and_get_ref _ _ _ _ Hl).
    destruct (truthy (obj_read "etag" o)).
    + rewrite (arg_get_ref _ _ _ _ Hl), (arg_delete_ref _ _ _ _ Hl).
      assert (Hw : <[l := obj_delete "etag" o]> (heap w) !! l
                   = Some (obj_delete "etag" o))
        by (eapply lookup_written, Hl).
      unfold ret. send.
    + unfold ret. send.
  - unfold Folders.deletePermanently, bind, ret. cbn [is_function arg_truthy fst snd].
    rewrite (arg_and_get_ref _ _ _ _ Hl).
    destruct (truthy (obj_read "etag" o)).
    + rewrite (arg_get_ref _ _ _ _ Hl). send.
    + send.
Qed.

(** C5 (amended). [deletePermanently]: a callable in the options position is
    taken as the callback and options becomes a new empty object; when
    options has an [etag] key with a truthy value the DELETE request to
    [/folders/{id}/trash] carries the header [If-Match] with that value, and
    the caller's options object keeps its [etag] key; with no [etag] key, or
    a falsy one, no header is sent; in every case the request has neither
    query parameters nor body. *)
Theorem deletePermanently_request folderID l (o : obj) f callback w :
  heap w !! l = Some o ->
  let trash hd cb :=
    mkCall DefaultHandler DELETE (urlPath [BASE_PATH; folderID; "/trash"])
      None None hd cb in
  deletePermanently folderID (AFunction f) callback w
    = settled_by (trash None (AFunction f)) (heap w ++ [[]]) w
  /\ (forall etag,
        obj_get "etag" o = Some etag -> truthy etag = true ->
        deletePermanently folderID (ARef l) callback w
          = settled_by (trash (Some (VObj [("If-Match", etag)])) callback)
              (heap w) w)
  /\ (obj_get "etag" o = None \/
      (exists etag, obj_get "etag" o = Some etag /\ truthy etag = false) ->
      deletePermanently folderID (ARef l) callback w
        = settled_by (trash None callback) (heap w) w)
  /\ deletePermanently folderID AUndefined callback w
       = settled_by (trash None callback) (heap w) w
  /\ deletePermanently folderID ANull callback w
       = settled_by (trash None callback) (heap w) w.
Proof.
  intros Hl trash. conjuncts.
  - unfold Folders.deletePermanently, bind, ret, alloc.
    cbn [is_function arg_truthy fst snd arg_and_get].
    rewrite (arg_get_ref (mkWorld (heap w ++ [[]]) (sent w)) _ _ _
               (lookup_alloc _ _)).
    cbn [obj_read obj_get truthy]. send.
  - intros etag He Ht.
    unfold Folders.deletePermanently, bind, ret. cbn [is_function arg_truthy fst snd].
    rewrite (arg_and_get_ref _ _ _ _ Hl), (obj_read_some _ _ _ He), Ht.
    rewrite (arg_get_ref _ _ _ _ Hl), (obj_read_some _ _ _ He). send.
  - intros Hfalsy.
    assert (Ht : truthy (obj_read "etag" o) = false).
    { destruct Hfalsy as [Hn|[etag [He Ht]]].
      - rewrite (obj_read_none _ _ Hn). reflexivity.
      - rewrite (obj_read_some _ _ _ He). exact Ht. }
    unfold Folders.deletePermanently, bind, ret. cbn [is_function arg_truthy fst snd].
    rewrite (arg_and_get_ref _ _ _ _ Hl), Ht. send.
  - reflexivity.
  - reflexivity.
Qed.

(** C6. [copy] with a callable as third argument runs as [copy] with a new
    empty options object and that callable as the callback; the POST to
    [/folders/{id}/copy] has as body the options with [parent] set to
    [{id: newParentID}]: for an options object, for a callable, and for
    options left out. *)
Theorem copy_request folderID newParentID l (o : obj) f callback w :
  heap w !! l = Some o ->
  let parent := VObj [("id", VStr newParentID)] in
  let post b cb :=
    mkCall DefaultHandler POST (urlPath [BASE_PATH; folderID; "/copy"])
      None (Some (VObj b)) None cb in
  copy folderID newParentID (AFunction f) callback w
    = copy folderID newParentID (ARef (length (heap w))) (AFunction f)
        (mkWorld (heap w ++ [[]]) (sent w))
  /\ copy folderID newParentID (AFunction f) callback w
    = settled_by (post [("parent", parent)] (AFunction f))
        (heap w ++ [[("parent", parent)]]) w
  /\ copy folderID newParentID (ARef l) callback w
    = settled_by (post (obj_set "parent" parent o) callback)
        (<[l := obj_set "parent" parent o]> (heap w)) w
  /\ copy folderID newParentID AUndefined callback w
    = settled_by (post [("parent", parent)] callback)
        (heap w ++ [[("parent", parent)]]) w
  /\ copy folderID newParentID ANull callback w
    = settled_by (post [("parent", parent)] callback)
        (heap w ++ [[("parent", parent)]]) w
  /\ obj_get "parent" (obj_set "parent" parent o) = Some parent
  /\ (forall k, k <> "parent" ->
        obj_get k (obj_set "parent" parent o) = obj_get k o).
Proof.
  intros Hl parent post.
  assert (Hnew : forall h : list obj,
             <[length h := [("parent", parent)]]> (h ++ [[]])
             = h ++ [[("parent", parent)]]).
  { intros h. induction h as [|x h IH]; simpl; [reflexivity|].
    f_equal. exact IH. }
  conjuncts.
  - reflexivity.
  - unfold Folders.copy, bind, ret, alloc. cbn [is_function arg_truthy fst snd].
    rewrite (arg_set_ref (mkWorld (heap w ++ [[]]) (sent w)) _ _ _ _
               (lookup_alloc _ _)).
    cbn [heap sent]. rewrite Hnew.
    pose proof (lookup_alloc (heap w) [("parent", parent)]) as Hw. send.
  - unfold Folders.copy, bind, ret. cbn [is_function arg_truthy fst snd].
    rewrite (arg_set_ref _ _ _ _ _ Hl).
    assert (Hw : <[l := obj_set "parent" parent o]> (heap w) !! l
                 = Some (obj_set "parent" parent o))
      by (eapply lookup_written, Hl).
    send.
  - unfold Folders.copy, bind, ret, alloc. cbn [is_function arg_truthy fst snd].
    rewrite (arg_set_ref (mkWorld (heap w ++ [[]]) (sent w)) _ _ _ _
               (lookup_alloc _ _)).
    cbn [heap sent]. rewrite Hnew.
    pose proof (lookup_alloc (heap w) [("parent", parent)]) as Hw. send.
  - unfold Folders.copy, bind, ret, alloc. cbn [is_function arg_truthy fst snd].
    rewrite (arg_set_ref (mkWorld (heap w ++ [[]]) (sent w)) _ _ _ _
               (lookup_alloc _ _)).
    cbn [heap sent]. rewrite Hnew.
    pose proof (lookup_alloc (heap w) [("parent", parent)]) as Hw. send.
  - apply obj_get_set_eq.
  - intros k Hk. apply obj_get_set_ne, Hk.
Qed.


(** C9 (amended). [restoreFromTrash] sends a POST whose body is the options
    mapping; when options has a [parent_id] key with a truthy value, that key
    is replaced by [parent: {id: parent_id}] and the other keys are kept;
    when it has no [parent_id] key, or one with a falsy value, the body is
    the options as given; with no options the body is [{}]. *)
Theorem restoreFromTrash_request folderID l (o : obj) callback w :
  heap w !! l = Some o ->
  let post b :=
    mkCall DefaultHandler POST (urlPath [BASE_PATH; folderID])
      None (Some (VObj b)) None callback in
  (forall parent_id,
     obj_get "parent_id" o = Some parent_id -> truthy parent_id = true ->
     let renamed :=
       obj_delete "parent_id" (obj_set "parent" (VObj [("id", parent_id)]) o) in
     restoreFromTrash folderID (ARef l) callback w
       = settled_by (post renamed) (<[l := renamed]> (heap w)) w
     /\ obj_get "parent_id" renamed = None
     /\ obj_get "parent" renamed = Some (VObj [("id", parent_id)])
     /\ (forall k, k <> "parent" -> k <> "parent_id" ->
           obj_get k renamed = obj_get k o))
  /\ (obj_get "parent_id" o = None \/
      (exists parent_id,
         obj_get "parent_id" o = Some parent_id /\ truthy parent_id = false) ->
      restoreFromTrash folderID (ARef l) callback w
        = settled_by (post o) (heap w) w)
  /\ (o = [("parent_id", VStr "5"); ("name", VStr "x")] ->
      exists sent_body,
        restoreFromTrash folderID (ARef l) callback w
          = settled_by (post sent_body) (<[l := sent_body]> (heap w)) w
        /\ same_mapping sent_body
             [("parent", VObj [("id", VStr "5")]); ("name", VStr "x")]
        /\ obj_has "parent_id" sent_body = false)
  /\ restoreFromTrash folderID AUndefined callback w
       = settled_by (post []) (heap w) w
  /\ restoreFromTrash folderID ANull callback w
       = settled_by (post []) (heap w) w.
Proof.
  intros Hl post.
  assert (Hrename : forall parent_id,
     obj_get "parent_id" o = Some parent_id -> truthy parent_id = true ->
     let renamed :=
       obj_delete "parent_id" (obj_set "parent" (VObj [("id", parent_id)]) o) in
     restoreFromTrash folderID (ARef l) callback w
       = settled_by (post renamed) (<[l := renamed]> (heap w)) w
     /\ obj_get "parent_id" renamed = None
     /\ obj_get "parent" renamed = Some (VObj [("id", parent_id)])
     /\ (forall k, k <> "parent" -> k <> "parent_id" ->
           obj_get k renamed = obj_get k o)); [|conjuncts].
  - intros parent_id Hp Ht renamed. conjuncts.
    + unfold Folders.restoreFromTrash, bind.
      rewrite (arg_and_get_ref _ _ _ _ Hl), (obj_read_some _ _ _ Hp), Ht.
      rewrite (arg_get_ref _ _ _ _ Hl), (obj_read_some _ _ _ Hp).
      rewrite (arg_set_ref _ _ _ _ _ Hl).
      erewrite arg_delete_ref by (eapply lookup_written, Hl).
      cbn [heap sent arg_truthy]. rewrite list_insert_insert_eq.
      assert (Hw : <[l := renamed]> (heap w) !! l = Some renamed)
        by (eapply lookup_written, Hl).
      send.
    + apply obj_get_delete_eq.
    + unfold renamed. rewrite obj_get_delete_ne by discriminate.
      apply obj_get_set_eq.
    + intros k Hk1 Hk2. unfold renamed.
      rewrite obj_get_delete_ne by exact Hk2. apply obj_get_set_ne, Hk1.
  - exact Hrename.
  - intros Hfalsy.
    assert (Ht : truthy (obj_read "parent_id" o) = false).
    { destruct Hfalsy as [Hn|[p [Hp Ht]]].
      - rewrite (obj_read_none _ _ Hn). reflexivity.
      - rewrite (obj_read_some _ _ _ Hp). exact Ht. }
    unfold Folders.restoreFromTrash, bind.
    rewrite (arg_and_get_ref _ _ _ _ Hl), Ht. unfold ret.
    cbn [arg_truthy]. send.
  - intros Ho.
    destruct (Hrename (VStr "5")) as [Hsent _];
      [rewrite Ho; reflexivity|reflexivity|].
    rewrite Ho in Hsent.
    exists [("name", VStr "x"); ("parent", VObj [("id", VStr "5")])].
    conjuncts; [exact Hsent| |reflexivity].
    intros k. cbn [obj_get].
    destruct (String.eqb_spec "name" k) as [<-|]; [reflexivity|].
    destruct (String.eqb_spec "parent" k); reflexivity.
  - reflexivity.
  - reflexivity.
Qed.

(** C8. [applyWatermark] sends a PUT whose body is
    [{watermark: {imprint: "default", ...options}}]: every key of the
    caller's options is in the watermark with the caller's value (so a
    caller's [imprint] replaces the default), the imprint is ["default"] when
    the caller gives none, and nothing else is in it; with options
    [{imprint: "custom"}] the body is [{watermark: {imprint: "custom"}}] and
    without options it is [{watermark: {imprint: "default"}}]. *)
Theorem applyWatermark_request folderID l (o : obj) callback w :
  heap w !! l = Some o ->
  List.NoDup (obj_keys o) ->
  let put wm :=
    mkCall DefaultHandler PUT
      (urlPath [BASE_PATH; folderID; WATERMARK_SUBRESOURCE])
      None (Some (VObj [("watermark", VObj wm)])) None callback in
  let watermark := obj_assign [("imprint", VStr "default")] o in
  applyWatermark folderID (ARef l) callback w
    = settled_by (put watermark) (heap w) w
  /\ (forall k v, obj_get k o = Some v -> obj_get k watermark = Some v)
  /\ (obj_get "imprint" o = None ->
      obj_get "imprint" watermark = Some (VStr "default"))
  /\ (forall k, k <> "imprint" -> obj_get k o = None ->
      obj_get k watermark = None)
  /\ (o = [("imprint", VStr "custom")] ->
      watermark = [("imprint", VStr "custom")])
  /\ applyWatermark folderID AUndefined callback w
       = settled_by (put [("imprint", VStr "default")]) (heap w) w
  /\ applyWatermark folderID ANull callback w
       = settled_by (put [("imprint", VStr "default")]) (heap w) w.
Proof.
  intros Hl Hnd put watermark. conjuncts.
  - unfold Folders.applyWatermark, object_assign, bind, read, ret.
    rewrite Hl. send.
  - intros k v Hk. unfold watermark. rewrite (obj_get_assign _ _ Hnd), Hk.
    reflexivity.
  - intros Hk. unfold watermark. rewrite (obj_get_assign _ _ Hnd), Hk.
    reflexivity.
  - intros k Hne Hk. unfold watermark. rewrite (obj_get_assign _ _ Hnd), Hk.
    cbn [obj_get]. destruct (String.eqb_spec "imprint" k); [congruence|reflexivity].
  - intros Ho. unfold watermark. rewrite Ho. reflexivity.
  - reflexivity.
  - reflexivity.
Qed.


Lemma snapshot_shared (h : list obj) a q :
  deref h a = Some q -> snapshot h (Some (Shared a)) = Some (Some q).
Proof. intros H. unfold snapshot. rewrite H. reflexivity. Qed.

Lemma strict_eq_num_ne v n : v <> VNum n -> strict_eq_num v n = false.
Proof.
  intros Hne. destruct v; try reflexivity. simpl.
  apply Z.eqb_neq. intros ->. apply Hne. reflexivity.
Qed.

Lemma map_keys_patch w l (o : obj) keys :
  heap w !! l = Some o ->
  map_keys
    (fun key =>
       let! v := arg_get (ARef l) key in ret (Folders.patch_entry key v))
    keys w
  = (Resolved (map (fun key => Folders.patch_entry key (obj_read key o)) keys),
     w).
Proof.
  intros Hl. induction keys as [|k keys IH]; [reflexivity|].
  cbn [map_keys map].
  erewrite bind_resolved;
    [| erewrite bind_resolved by (apply arg_get_ref, Hl); reflexivity ].
  erewrite bind_resolved by exact IH. reflexivity.
Qed.

(** C1. [setMetadata] first calls [addMetadata]. When that call succeeds
    no second call is made.  When it fails with status code 409 exactly one
    [updateMetadata] call follows, whose body lists
    [{op: "add", path: "/" + key, value}] for each key of the metadata, in
    the metadata's key order.  When it fails with another status code no
    call follows and the error is passed on as it is. *)
Theorem setMetadata_calls folderID scope template l (md : obj) callback w :
  heap w !! l = Some md ->
  let path := urlPath [BASE_PATH; folderID; "metadata"; scope; template] in
  let add :=
    mkCall DefaultHandler POST path None (Some (VObj md)) None AUndefined in
  let entry key :=
    VObj [("op", VStr "add"); ("path", VStr ("/" +:+ key));
          ("value", obj_read key md)] in
  let upd :=
    mkCall DefaultHandler PUT path None
      (Some (VArr (map entry (obj_keys md))))
      (Some (VObj [("Content-Type", VStr "application/json-patch+json")]))
      AUndefined in
  (forall v,
     client (sent w) add = Fulfilled v ->
     setMetadata folderID scope template (ARef l) callback w
       = (Resolved v, mkWorld (heap w) (sent w ++ [add])))
  /\ (forall err,
        client (sent w) add = Failed err ->
        get_prop err "statusCode" = inr (VNum 409) ->
        setMetadata folderID scope template (ARef l) callback w
          = (settle (client (sent w ++ [add]) upd),
             mkWorld (heap w) (sent w ++ [add; upd])))
  /\ (forall err code,
        client (sent w) add = Failed err ->
        get_prop err "statusCode" = inr code -> code <> VNum 409 ->
        setMetadata folderID scope template (ARef l) callback w
          = (Rejected (Thrown err), mkWorld (heap w) (sent w ++ [add]))).
Proof.
  intros Hl path add entry upd.
  assert (Hadd : Folders.addMetadata urlPath client folderID scope template
                   (ARef l) AUndefined w
                 = settled_by add (heap w) w)
    by (unfold Folders.addMetadata; send).
  conjuncts.
  - intros v Hv. unfold Folders.setMetadata, asCallback, catch.
    rewrite Hadd. unfold Folders.settled_by. rewrite Hv. reflexivity.
  - intros err Herr Hcode. unfold Folders.setMetadata, asCallback, catch.
    rewrite Hadd. unfold Folders.settled_by. rewrite Herr.
    cbn [settle reason_prop]. rewrite Hcode. cbn [lift]. unfold bind at 1.
    unfold ret at 1. cbn [strict_eq_num Z.eqb Pos.eqb negb].
    unfold bind at 1. unfold object_keys, bind at 1, read, ret at 1.
    cbn [heap]. rewrite Hl. unfold bind at 1.
    erewrite map_keys_patch by exact Hl.
    unfold Folders.updateMetadata. erewrite request_at by reflexivity.
    unfold Folders.settled_by. cbn [heap sent]. rewrite <- app_assoc.
    reflexivity.
  - intros err code Herr Hcode Hne. unfold Folders.setMetadata, asCallback, catch.
    rewrite Hadd. unfold Folders.settled_by. rewrite Herr.
    cbn [settle reason_prop]. rewrite Hcode. cbn [lift]. unfold bind at 1.
    unfold ret at 1. rewrite (strict_eq_num_ne _ _ Hne). reflexivity.
Qed.

(** C2. [getWatermark] resolves, on a response with status code 200, to the
    [watermark] field of the response body and nothing more; on a response
    with any other status code it rejects with the error that
    [buildUnexpectedResponseError] makes of the response. *)
Theorem getWatermark_outcome folderID options callback q response w :
  deref (heap w) options = Some q ->
  let rq :=
    mkCall Raw GET (urlPath [BASE_PATH; folderID; WATERMARK_SUBRESOURCE])
      (Some q) None None AUndefined in
  client (sent w) rq = Fulfilled response ->
  let w1 := mkWorld (heap w) (sent w ++ [rq]) in
  (forall body watermark,
     get_prop response "statusCode" = inr (VNum 200) ->
     get_prop response "body" = inr body ->
     get_prop body "watermark" = inr watermark ->
     getWatermark folderID options callback w = (Resolved watermark, w1))
  /\ (forall code,
        get_prop response "statusCode" = inr code -> code <> VNum 200 ->
        getWatermark folderID options callback w
          = (Rejected (Thrown (buildUnexpectedResponseError response)), w1)).
Proof.
  intros Hq rq Hrq w1.
  assert (Hget : request Raw GET
                   (urlPath [BASE_PATH; folderID; WATERMARK_SUBRESOURCE])
                   (set_qs (Shared options) no_params) AUndefined w
                 = (Resolved response, w1)).
  { erewrite request_at;
      [| apply snapshot_shared, Hq | reflexivity | reflexivity ].
    unfold Folders.settled_by. fold rq. rewrite Hrq. reflexivity. }
  split.
  - intros body watermark Hcode Hbody Hwm.
    unfold Folders.getWatermark, asCallback. unfold bind at 1. rewrite Hget.
    rewrite Hcode. cbn [lift]. unfold bind at 1. unfold ret at 1.
    cbn [strict_eq_num Z.eqb Pos.eqb negb]. rewrite Hbody. cbn [lift].
    unfold bind, ret. rewrite Hwm. reflexivity.
  - intros code Hcode Hne.
    unfold Folders.getWatermark, asCallback. unfold bind at 1. rewrite Hget.
    rewrite Hcode. cbn [lift]. unfold bind at 1. unfold ret at 1.
    rewrite (strict_eq_num_ne _ _ Hne). reflexivity.
Qed.


Lemma get_with folderID l (o : obj) callback h s :
  h !! l = Some o ->
  get folderID (ARef l) callback (mkWorld h s)
  = settled_by
      (mkCall DefaultHandler GET (urlPath [BASE_PATH; folderID])
         (Some (VObj o)) None None callback)
      h (mkWorld h s).
Proof. intros Hl. unfold Folders.get. send. Qed.

Lemma update_without_etag folderID l (o : obj) callback h s :
  h !! l = Some o ->
  obj_get "etag" o = None ->
  update folderID (ARef l) callback (mkWorld h s)
  = settled_by
      (mkCall DefaultHandler PUT (urlPath [BASE_PATH; folderID])
         None (Some (VObj o)) None callback)
      h (mkWorld h s).
Proof.
  intros Hl He. unfold Folders.update.
  erewrite bind_resolved by (apply arg_and_get_ref, Hl).
  rewrite (obj_read_none _ _ He). cbn [truthy].
  erewrite bind_resolved by reflexivity. send.
Qed.

Lemma array_map_id_only (entries : list obj) :
  array_map id_only (map VObj entries)
  = inr (map (fun e => VObj [("id", obj_read "id" e)]) entries).
Proof.
  induction entries as [|e entries IH]; [reflexivity|].
  cbn [map array_map id_only get_prop]. rewrite IH. reflexivity.
Qed.

Lemma array_find_id_is collectionID (entries : list obj) :
  exists found,
    array_find (id_is collectionID)
      (map (fun e => VObj [("id", obj_read "id" e)]) entries) = inr found
    /\ truthy found
       = existsb (fun e => strict_eq_str (obj_read "id" e) collectionID)
           entries.
Proof.
  induction entries as [|e entries [found [Hf Ht]]].
  - exists VUndefined. split; reflexivity.
  - cbn [map array_find id_is get_prop existsb].
    replace (obj_read "id" [("id", obj_read "id" e)]) with (obj_read "id" e)
      by reflexivity.
    destruct (strict_eq_str (obj_read "id" e) collectionID).
    + eexists. split; reflexivity.
    + exists found. split; [exact Hf|exact Ht].
Qed.

Lemma array_filter_id_is_not collectionID (entries : list obj) :
  array_filter (id_is_not collectionID)
    (map (fun e => VObj [("id", obj_read "id" e)]) entries)
  = inr (map (fun e => VObj [("id", obj_read "id" e)])
           (List.filter
              (fun e => negb (strict_eq_str (obj_read "id" e) collectionID))
              entries)).
Proof.
  induction entries as [|e entries IH]; [reflexivity|].
  cbn [map array_filter id_is_not get_prop List.filter]. rewrite IH.
  replace (obj_read "id" [("id", obj_read "id" e)]) with (obj_read "id" e)
    by reflexivity.
  destruct (strict_eq_str (obj_read "id" e) collectionID); reflexivity.
Qed.

(** The two collection methods, step by step: the folder is fetched with
    [fields=collections], and the list computed from it is sent by
    [update]. *)
Lemma addToCollection_run folderID collectionID callback w
    data field elems normalized found :
  let fetch :=
    mkCall DefaultHandler GET (urlPath [BASE_PATH; folderID])
      (Some (VObj [("fields", VStr "collections")])) None None AUndefined in
  let save cs :=
    mkCall DefaultHandler PUT (urlPath [BASE_PATH; folderID])
      None (Some (VObj [("collections", VArr cs)])) None AUndefined in
  client (sent w) fetch = Fulfilled data ->
  get_prop data "collections" = inr field ->
  as_array (or_else field (VArr [])) = inr elems ->
  array_map id_only elems = inr normalized ->
  array_find (id_is collectionID) normalized = inr found ->
  let cs :=
    if truthy found then normalized
    else normalized ++ [VObj [("id", VStr collectionID)]] in
  addToCollection folderID collectionID callback w
  = (settle (client (sent w ++ [fetch]) (save cs)),
     mkWorld
       (heap w ++ [[("fields", VStr "collections")];
                   [("collections", VArr cs)]])
       (sent w ++ [fetch; save cs])).
Proof.
  intros fetch save Hdata Hfield Helems Hmap Hfind cs.
  unfold Folders.addToCollection, asCallback.
  erewrite bind_resolved by reflexivity.
  erewrite bind_resolved;
    [| rewrite (get_with _ _ _ _ _ _ (lookup_alloc _ _));
       unfold Folders.settled_by; cbn [heap sent]; fold fetch;
       rewrite Hdata; reflexivity ].
  rewrite Hfield. erewrite bind_resolved by reflexivity. cbv zeta.
  rewrite Helems. erewrite bind_resolved by reflexivity.
  rewrite Hmap. erewrite bind_resolved by reflexivity.
  rewrite Hfind. erewrite bind_resolved by reflexivity.
  erewrite bind_resolved by reflexivity.
  erewrite update_without_etag; [| apply lookup_alloc | reflexivity ].
  unfold Folders.settled_by. cbn [heap sent]. rewrite <- !app_assoc.
  subst cs. destruct (truthy found); reflexivity.
Qed.

Lemma removeFromCollection_run folderID collectionID callback w
    data field elems normalized cs :
  let fetch :=
    mkCall DefaultHandler GET (urlPath [BASE_PATH; folderID])
      (Some (VObj [("fields", VStr "collections")])) None None AUndefined in
  let save cs :=
    mkCall DefaultHandler PUT (urlPath [BASE_PATH; folderID])
      None (Some (VObj [("collections", VArr cs)])) None AUndefined in
  client (sent w) fetch = Fulfilled data ->
  get_prop data "collections" = inr field ->
  as_array (or_else field (VArr [])) = inr elems ->
  array_map id_only elems = inr normalized ->
  array_filter (id_is_not collectionID) normalized = inr cs ->
  removeFromCollection folderID collectionID callback w
  = (settle (client (sent w ++ [fetch]) (save cs)),
     mkWorld
       (heap w ++ [[("fields", VStr "collections")];
                   [("collections", VArr cs)]])
       (sent w ++ [fetch; save cs])).
Proof.
  intros fetch save Hdata Hfield Helems Hmap Hfilter.
  unfold Folders.removeFromCollection, asCallback.
  erewrite bind_resolved by reflexivity.
  erewrite bind_resolved;
    [| rewrite (get_with _ _ _ _ _ _ (lookup_alloc _ _));
       unfold Folders.settled_by; cbn [heap sent]; fold fetch;
       rewrite Hdata; reflexivity ].
  rewrite Hfield. erewrite bind_resolved by reflexivity. cbv zeta.
  rewrite Helems. erewrite bind_resolved by reflexivity.
  rewrite Hmap. erewrite bind_resolved by reflexivity.
  rewrite Hfilter. erewrite bind_resolved by reflexivity.
  erewrite bind_resolved by reflexivity.
  erewrite update_without_etag; [| apply lookup_alloc | reflexivity ].
  unfold Folders.settled_by. cbn [heap sent]. rewrite <- !app_assoc.
  reflexivity.
Qed.


(** C7. [addToCollection] and [removeFromCollection] fetch the folder with
    [fields=collections], reduce each collection entry to [{id}], and call
    [update] with the resulting list: the target is appended unless an entry
    has its id, or the entries with its id are dropped.  From
    [[{id:"1"},{id:"2"}]], adding "3" sends
    [[{id:"1"},{id:"2"},{id:"3"}]], adding "1" sends the list with no
    duplicate, and removing "2" sends [[{id:"1"}]]. *)
Theorem collections_update folderID collectionID callback
    (folder : obj) (entries : list obj) w :
  let fetch :=
    mkCall DefaultHandler GET (urlPath [BASE_PATH; folderID])
      (Some (VObj [("fields", VStr "collections")])) None None AUndefined in
  let save cs :=
    mkCall DefaultHandler PUT (urlPath [BASE_PATH; folderID])
      None (Some (VObj [("collections", VArr cs)])) None AUndefined in
  let fetched_then_saved cs :=
    (settle (client (sent w ++ [fetch]) (save cs)),
     mkWorld
       (heap w ++ [[("fields", VStr "collections")];
                   [("collections", VArr cs)]])
       (sent w ++ [fetch; save cs])) in
  let id_only e := VObj [("id", obj_read "id" e)] in
  let is_target e := strict_eq_str (obj_read "id" e) collectionID in
  let added :=
    if existsb is_target entries then map id_only entries
    else map id_only entries ++ [VObj [("id", VStr collectionID)]] in
  let removed :=
    map id_only (List.filter (fun e => negb (is_target e)) entries) in
  let one := VObj [("id", VStr "1")] in
  let two := VObj [("id", VStr "2")] in
  let three := VObj [("id", VStr "3")] in
  client (sent w) fetch = Fulfilled (VObj folder) ->
  obj_get "collections" folder = Some (VArr (map VObj entries)) ->
  addToCollection folderID collectionID callback w = fetched_then_saved added
  /\ removeFromCollection folderID collectionID callback w
     = fetched_then_saved removed
  /\ (entries = [[("id", VStr "1")]; [("id", VStr "2")]] ->
      (collectionID = "3" -> added = [one; two; three])
      /\ (collectionID = "1" -> added = [one; two])
      /\ (collectionID = "2" -> removed = [one])).
Proof.
  intros fetch save fetched_then_saved id_only is_target added removed
    one two three Hdata Hfield.
  assert (Hprop : get_prop (VObj folder) "collections"
                  = inr (VArr (map VObj entries)))
    by (cbn [get_prop]; rewrite (obj_read_some _ _ _ Hfield); reflexivity).
  conjuncts.
  - destruct (array_find_id_is collectionID entries) as [found [Hfind Ht]].
    erewrite addToCollection_run;
      [| exact Hdata | exact Hprop | reflexivity
       | apply array_map_id_only | exact Hfind ].
    rewrite Ht. reflexivity.
  - erewrite removeFromCollection_run;
      [| exact Hdata | exact Hprop | reflexivity
       | apply array_map_id_only | apply array_filter_id_is_not ].
    reflexivity.
  - intros ->. subst added removed. conjuncts; intros ->; reflexivity.
Qed.

(** C10. When the fetched folder has no [collections] field, or a null one,
    both methods go on with the empty list: [addToCollection] calls [update]
    with [[{id: collectionID}]] and [removeFromCollection] calls [update]
    with the empty list. *)
Theorem collections_missing folderID collectionID callback (folder : obj) w :
  let fetch :=
    mkCall DefaultHandler GET (urlPath [BASE_PATH; folderID])
      (Some (VObj [("fields", VStr "collections")])) None None AUndefined in
  let save cs :=
    mkCall DefaultHandler PUT (urlPath [BASE_PATH; folderID])
      None (Some (VObj [("collections", VArr cs)])) None AUndefined in
  let fetched_then_saved cs :=
    (settle (client (sent w ++ [fetch]) (save cs)),
     mkWorld
       (heap w ++ [[("fields", VStr "collections")];
                   [("collections", VArr cs)]])
       (sent w ++ [fetch; save cs])) in
  client (sent w) fetch = Fulfilled (VObj folder) ->
  obj_get "collections" folder = None
  \/ obj_get "collections" folder = Some VNull ->
  addToCollection folderID collectionID callback w
    = fetched_then_saved [VObj [("id", VStr collectionID)]]
  /\ removeFromCollection folderID collectionID callback w
     = fetched_then_saved [].
Proof.
  intros fetch save fetched_then_saved Hdata Hmissing.
  assert (Hfield : exists field,
             get_prop (VObj folder) "collections" = inr field
             /\ or_else field (VArr []) = VArr []).
  { cbn [get_prop]. destruct Hmissing as [Hn|Hn].
    - rewrite (obj_read_none _ _ Hn). eexists. split; reflexivity.
    - rewrite (obj_read_some _ _ _ Hn). eexists. split; reflexivity. }
  destruct Hfield as [field [Hprop Hor]].
  split.
  - erewrite addToCollection_run;
      [| exact Hdata | exact Hprop | rewrite Hor; reflexivity
       | reflexivity | reflexivity ].
    reflexivity.
  - erewrite removeFromCollection_run;
      [| exact Hdata | exact Hprop | rewrite Hor; reflexivity
       | reflexivity | reflexivity ].
    reflexivity.
Qed.


(** ** Further properties of the manager *)

Local Abbreviation getItems := (Folders.getItems urlPath client).
Local Abbreviation getCollaborations :=
  (Folders.getCollaborations urlPath client).
Local Abbreviation create := (Folders.create client).
Local Abbreviation move := (Folders.move urlPath client).
Local Abbreviation getAllMetadata := (Folders.getAllMetadata urlPath client).
Local Abbreviation getMetadata := (Folders.getMetadata urlPath client).
Local Abbreviation deleteMetadata := (Folders.deleteMetadata urlPath client).
Local Abbreviation getTrashedFolder :=
  (Folders.getTrashedFolder urlPath client).
Local Abbreviation removeWatermark := (Folders.removeWatermark urlPath client).
Local Abbreviation lock := (Folders.lock client).
Local Abbreviation getLocks := (Folders.getLocks client).
Local Abbreviation deleteLock := (Folders.deleteLock urlPath client).

Lemma bind_rejected {A B} (m : M A) (k : A -> M B) w e w' :
  m w = (Rejected e, w') -> bind m k w = (Rejected e, w').
Proof. intros H. unfold bind. rewrite H. reflexivity. Qed.

(** The first step of both collection methods: the query object is made and
    the folder is fetched. *)
Lemma collections_fetch folderID w :
  let query := [("fields", VStr "collections")] in
  let fetch :=
    mkCall DefaultHandler GET (urlPath [BASE_PATH; folderID])
      (Some (VObj query)) None None AUndefined in
  get folderID (ARef (length (heap w))) AUndefined
    (mkWorld (heap w ++ [query]) (sent w))
  = (settle (client (sent w) fetch),
     mkWorld (heap w ++ [query]) (sent w ++ [fetch])).
Proof.
  intros query fetch.
  rewrite (get_with _ _ _ _ _ _ (lookup_alloc _ _)). reflexivity.
Qed.

Lemma array_map_id_only_nullish (elems : list value) :
  existsb nullish elems = true -> array_map id_only elems = inl TypeError.
Proof.
  induction elems as [|x elems IH]; [discriminate|].
  cbn [existsb array_map]. destruct x; cbn [nullish orb id_only get_prop];
    try reflexivity; intros H; rewrite (IH H); reflexivity.
Qed.

(** X1. When the fetch of the folder fails, [addToCollection] and
    [removeFromCollection] make no [update] call and reject with the error
    of the fetch. *)
Theorem collections_fetch_failure folderID collectionID callback err w :
  let query := [("fields", VStr "collections")] in
  let fetch :=
    mkCall DefaultHandler GET (urlPath [BASE_PATH; folderID])
      (Some (VObj query)) None None AUndefined in
  client (sent w) fetch = Failed err ->
  let failed :=
    (Rejected (Thrown err) : outcome value,
     mkWorld (heap w ++ [query]) (sent w ++ [fetch])) in
  addToCollection folderID collectionID callback w = failed
  /\ removeFromCollection folderID collectionID callback w = failed.
Proof.
  intros query fetch Herr failed.
  pose proof (collections_fetch folderID w) as Hget. cbv zeta in Hget.
  fold query fetch in Hget. rewrite Herr in Hget.
  split.
  - unfold Folders.addToCollection, asCallback.
    erewrite bind_resolved by reflexivity.
    erewrite bind_rejected by exact Hget. reflexivity.
  - unfold Folders.removeFromCollection, asCallback.
    erewrite bind_resolved by reflexivity.
    erewrite bind_rejected by exact Hget. reflexivity.
Qed.

(** X2. When the fetched folder is null or undefined, or its [collections]
    field is truthy but not an array, or the array has a null or undefined
    entry, both collection methods reject with a TypeError and make no
    [update] call. *)
Theorem collections_malformed folderID collectionID callback data w :
  let query := [("fields", VStr "collections")] in
  let fetch :=
    mkCall DefaultHandler GET (urlPath [BASE_PATH; folderID])
      (Some (VObj query)) None None AUndefined in
  client (sent w) fetch = Fulfilled data ->
  nullish data = true
  \/ (exists field,
        get_prop data "collections" = inr field
        /\ truthy field = true /\ forall elems, field <> VArr elems)
  \/ (exists elems,
        get_prop data "collections" = inr (VArr elems)
        /\ existsb nullish elems = true) ->
  let failed :=
    (Rejected TypeError : outcome value,
     mkWorld (heap w ++ [query]) (sent w ++ [fetch])) in
  addToCollection folderID collectionID callback w = failed
  /\ removeFromCollection folderID collectionID callback w = failed.
Proof.
  intros query fetch Hdata Hbad failed.
  pose proof (collections_fetch folderID w) as Hget. cbv zeta in Hget.
  fold query fetch in Hget. rewrite Hdata in Hget. cbn [settle] in Hget.
  assert (Hsteps : forall k : list value -> M value,
    (let! field := lift (get_prop data "collections") in
     let collections := or_else field (VArr []) in
     let! elems := lift (as_array collections) in
     let! mapped := lift (array_map id_only elems) in
     k mapped)
      (mkWorld (heap w ++ [query]) (sent w ++ [fetch]))
    = failed).
  { intros k. destruct Hbad as [Hnull|[[field [Hf [Ht Hna]]]|[elems [Hf He]]]].
    - destruct data; try discriminate; reflexivity.
    - rewrite Hf. erewrite bind_resolved by reflexivity. cbv zeta.
      unfold or_else. rewrite Ht.
      destruct field; try reflexivity. exfalso. eapply Hna. reflexivity.
    - rewrite Hf. erewrite bind_resolved by reflexivity. cbv zeta.
      cbn [or_else truthy as_array]. erewrite bind_resolved by reflexivity.
      rewrite (array_map_id_only_nullish _ He). reflexivity. }
  split.
  - unfold Folders.addToCollection, asCallback.
    erewrite bind_resolved by reflexivity.
    erewrite bind_resolved by exact Hget. apply Hsteps.
  - unfold Folders.removeFromCollection, asCallback.
    erewrite bind_resolved by reflexivity.
    erewrite bind_resolved by exact Hget. apply Hsteps.
Qed.


(** Lists of [{id}]-only objects, by their ids. *)
Lemma has_id_only collectionID (i : value) :
  has_id collectionID (VObj [("id", i)]) = strict_eq_str i collectionID.
Proof. reflexivity. Qed.

Lemma existsb_has_id collectionID (ids : list value) :
  existsb (has_id collectionID) (map (fun i => VObj [("id", i)]) ids)
  = existsb (fun i => strict_eq_str i collectionID) ids.
Proof.
  induction ids as [|i ids IH]; [reflexivity|].
  cbn [map existsb]. rewrite has_id_only, IH. reflexivity.
Qed.

Lemma filter_has_id collectionID (ids : list value) :
  List.filter (fun v => negb (has_id collectionID v))
    (map (fun i => VObj [("id", i)]) ids)
  = map (fun i => VObj [("id", i)])
      (List.filter (fun i => negb (strict_eq_str i collectionID)) ids).
Proof.
  induction ids as [|i ids IH]; [reflexivity|].
  cbn [map List.filter]. rewrite has_id_only, IH.
  destruct (strict_eq_str i collectionID); reflexivity.
Qed.

Lemma filter_not_target_none collectionID (ids : list value) :
  existsb (fun i => strict_eq_str i collectionID) ids = false ->
  List.filter (fun i => negb (strict_eq_str i collectionID)) ids = ids.
Proof.
  induction ids as [|i ids IH]; [reflexivity|].
  cbn [existsb List.filter]. destruct (strict_eq_str i collectionID);
    [discriminate|]. cbn [orb negb]. intros H. rewrite (IH H). reflexivity.
Qed.

Lemma existsb_filter_not_target collectionID (ids : list value) :
  existsb (fun i => strict_eq_str i collectionID)
    (List.filter (fun i => negb (strict_eq_str i collectionID)) ids) = false.
Proof.
  induction ids as [|i ids IH]; [reflexivity|].
  cbn [List.filter]. destruct (strict_eq_str i collectionID) eqn:E;
    cbn [negb]; [exact IH|]. cbn [existsb]. rewrite E, IH. reflexivity.
Qed.

Lemma strict_eq_str_true (v : value) s :
  strict_eq_str v s = true <-> v = VStr s.
Proof.
  split.
  - destruct v; try discriminate. cbn [strict_eq_str]. intros H.
    apply String.eqb_eq in H. subst. reflexivity.
  - intros ->. cbn [strict_eq_str]. apply String.eqb_refl.
Qed.

(** Both collection methods on a folder whose [collections] are objects,
    by the ids of these objects. *)
Lemma collections_runs folderID collectionID callback
    (folder : obj) (entries : list obj) w :
  let query := [("fields", VStr "collections")] in
  let fetch :=
    mkCall DefaultHandler GET (urlPath [BASE_PATH; folderID])
      (Some (VObj query)) None None AUndefined in
  let save cs :=
    mkCall DefaultHandler PUT (urlPath [BASE_PATH; folderID])
      None (Some (VObj [("collections", VArr cs)])) None AUndefined in
  let fetched_then_saved cs :=
    (settle (client (sent w ++ [fetch]) (save cs)),
     mkWorld (heap w ++ [query; [("collections", VArr cs)]])
       (sent w ++ [fetch; save cs])) in
  let ids := map (obj_read "id") entries in
  let is_target i := strict_eq_str i collectionID in
  let only_id i := VObj [("id", i)] in
  client (sent w) fetch = Fulfilled (VObj folder) ->
  obj_get "collections" folder = Some (VArr (map VObj entries)) ->
  addToCollection folderID collectionID callback w
    = fetched_then_saved
        (map only_id
           (if existsb is_target ids then ids else ids ++ [VStr collectionID]))
  /\ removeFromCollection folderID collectionID callback w
     = fetched_then_saved
         (map only_id (List.filter (fun i => negb (is_target i)) ids)).
Proof.
  intros query fetch save fetched_then_saved ids is_target only_id
    Hdata Hfield.
  assert (Hprop : get_prop (VObj folder) "collections"
                  = inr (VArr (map VObj entries)))
    by (cbn [get_prop]; rewrite (obj_read_some _ _ _ Hfield); reflexivity).
  assert (Hnorm : map (fun e => VObj [("id", obj_read "id" e)]) entries
                  = map only_id ids)
    by (unfold ids; rewrite List.map_map; reflexivity).
  assert (Hmap : array_map id_only (map VObj entries) = inr (map only_id ids))
    by (rewrite array_map_id_only, Hnorm; reflexivity).
  split.
  - destruct (array_find_id_is collectionID entries) as [found [Hfind Ht]].
    rewrite Hnorm in Hfind.
    erewrite addToCollection_run;
      [| exact Hdata | exact Hprop | reflexivity | exact Hmap | exact Hfind ].
    rewrite Ht.
    replace (existsb (fun e => strict_eq_str (obj_read "id" e) collectionID)
               entries) with (existsb is_target ids)
      by (unfold ids; clear; induction entries as [|e entries IH];
          [reflexivity|cbn [map existsb]; rewrite IH; reflexivity]).
    destruct (existsb is_target ids); [reflexivity|].
    rewrite List.map_app. reflexivity.
  - pose proof (array_filter_id_is_not collectionID entries) as Hfilter.
    rewrite Hnorm in Hfilter.
    erewrite removeFromCollection_run;
      [| exact Hdata | exact Hprop | reflexivity | exact Hmap | exact Hfilter ].
    replace (map (fun e => VObj [("id", obj_read "id" e)])
               (List.filter
                  (fun e => negb (strict_eq_str (obj_read "id" e) collectionID))
                  entries))
      with (map only_id (List.filter (fun i => negb (is_target i)) ids));
      [reflexivity|].
    unfold ids, is_target, only_id. clear.
    induction entries as [|e entries IH]; [reflexivity|].
    cbn [map List.filter].
    destruct (strict_eq_str (obj_read "id" e) collectionID);
      cbn [negb map]; rewrite IH; reflexivity.
Qed.


Lemma map_id_objects (ids : list value) :
  map VObj (map (fun i => [("id", i)]) ids)
  = map (fun i => VObj [("id", i)]) ids
  /\ map (obj_read "id") (map (fun i => [("id", i)]) ids) = ids.
Proof.
  split; induction ids as [|i ids IH]; try reflexivity;
    cbn [map]; rewrite IH; reflexivity.
Qed.

Lemma existsb_target_app collectionID (ids : list value) :
  existsb (fun i => strict_eq_str i collectionID) (ids ++ [VStr collectionID])
  = true.
Proof.
  rewrite List.existsb_app. cbn [existsb strict_eq_str].
  rewrite String.eqb_refl. destruct (existsb _ ids); reflexivity.
Qed.

Lemma filter_target_app collectionID (ids : list value) :
  List.filter (fun i => negb (strict_eq_str i collectionID))
    (ids ++ [VStr collectionID])
  = List.filter (fun i => negb (strict_eq_str i collectionID)) ids.
Proof.
  rewrite List.filter_app. cbn [List.filter strict_eq_str].
  rewrite String.eqb_refl. cbn [negb]. apply List.app_nil_r.
Qed.

(** X3. Whatever objects the fetched [collections] holds, the list that
    [addToCollection] sends has an entry with the target id, the list that
    [removeFromCollection] sends has none, and the second is the first
    without the entries of that id: the other entries are kept, in
    order. *)
Theorem collections_membership folderID collectionID callback
    (folder : obj) (entries : list obj) w :
  let query := [("fields", VStr "collections")] in
  let fetch :=
    mkCall DefaultHandler GET (urlPath [BASE_PATH; folderID])
      (Some (VObj query)) None None AUndefined in
  let save cs :=
    mkCall DefaultHandler PUT (urlPath [BASE_PATH; folderID])
      None (Some (VObj [("collections", VArr cs)])) None AUndefined in
  let fetched_then_saved cs :=
    (settle (client (sent w ++ [fetch]) (save cs)),
     mkWorld (heap w ++ [query; [("collections", VArr cs)]])
       (sent w ++ [fetch; save cs])) in
  client (sent w) fetch = Fulfilled (VObj folder) ->
  obj_get "collections" folder = Some (VArr (map VObj entries)) ->
  exists added removed,
    addToCollection folderID collectionID callback w
      = fetched_then_saved added
    /\ removeFromCollection folderID collectionID callback w
       = fetched_then_saved removed
    /\ existsb (has_id collectionID) added = true
    /\ existsb (has_id collectionID) removed = false
    /\ List.filter (fun v => negb (has_id collectionID v)) added = removed.
Proof.
  intros query fetch save fetched_then_saved Hdata Hfield.
  destruct (collections_runs folderID collectionID callback folder entries w
              Hdata Hfield) as [Hadd Hremove].
  eexists. eexists. split; [exact Hadd|]. split; [exact Hremove|].
  set (ids := map (obj_read "id") entries).
  rewrite !existsb_has_id, !filter_has_id. conjuncts.
  - destruct (existsb _ ids) eqn:E; [exact E|apply existsb_target_app].
  - apply existsb_filter_not_target.
  - destruct (existsb _ ids); [reflexivity|].
    rewrite filter_target_app. reflexivity.
Qed.

(** X4. When the fetched collections have pairwise different ids, no entry
    is repeated in the list [addToCollection] sends, nor in the list
    [removeFromCollection] sends. *)
Theorem collections_distinct folderID collectionID callback
    (folder : obj) (entries : list obj) w :
  let query := [("fields", VStr "collections")] in
  let fetch :=
    mkCall DefaultHandler GET (urlPath [BASE_PATH; folderID])
      (Some (VObj query)) None None AUndefined in
  let save cs :=
    mkCall DefaultHandler PUT (urlPath [BASE_PATH; folderID])
      None (Some (VObj [("collections", VArr cs)])) None AUndefined in
  let fetched_then_saved cs :=
    (settle (client (sent w ++ [fetch]) (save cs)),
     mkWorld (heap w ++ [query; [("collections", VArr cs)]])
       (sent w ++ [fetch; save cs])) in
  client (sent w) fetch = Fulfilled (VObj folder) ->
  obj_get "collections" folder = Some (VArr (map VObj entries)) ->
  List.NoDup (map (obj_read "id") entries) ->
  exists added removed,
    addToCollection folderID collectionID callback w
      = fetched_then_saved added
    /\ removeFromCollection folderID collectionID callback w
       = fetched_then_saved removed
    /\ List.NoDup added
    /\ List.NoDup removed.
Proof.
  intros query fetch save fetched_then_saved Hdata Hfield Hnd.
  destruct (collections_runs folderID collectionID callback folder entries w
              Hdata Hfield) as [Hadd Hremove].
  eexists. eexists. split; [exact Hadd|]. split; [exact Hremove|].
  set (ids := map (obj_read "id") entries) in *.
  assert (Hinj : Injective (fun i : value => VObj [("id", i)]))
    by (intros i j H; inversion H; reflexivity).
  split; apply Injective_map_NoDup; try exact Hinj.
  - destruct (existsb _ ids) eqn:E; [exact Hnd|].
    apply List.NoDup_app; [exact Hnd|repeat constructor; intros []|].
    intros i Hin [<-|[]].
    assert (Ht : existsb (fun i => strict_eq_str i collectionID) ids = true).
    { apply List.existsb_exists. exists (VStr collectionID).
      split; [exact Hin|apply strict_eq_str_true; reflexivity]. }
    rewrite Ht in E. discriminate.
  - apply List.NoDup_filter, Hnd.
Qed.

(** X5. The two collection methods undo each other on the list: from the
    list [addToCollection] would send, [removeFromCollection] sends what it
    would have sent from the original list and [addToCollection] sends the
    same list again; from the list [removeFromCollection] would send,
    [addToCollection] appends the target and [removeFromCollection] sends
    the same list again. *)
Theorem collections_round_trip folderID collectionID callback
    (folder : obj) (ids : list value) w :
  let query := [("fields", VStr "collections")] in
  let fetch :=
    mkCall DefaultHandler GET (urlPath [BASE_PATH; folderID])
      (Some (VObj query)) None None AUndefined in
  let save cs :=
    mkCall DefaultHandler PUT (urlPath [BASE_PATH; folderID])
      None (Some (VObj [("collections", VArr cs)])) None AUndefined in
  let fetched_then_saved cs :=
    (settle (client (sent w ++ [fetch]) (save cs)),
     mkWorld (heap w ++ [query; [("collections", VArr cs)]])
       (sent w ++ [fetch; save cs])) in
  let is_target i := strict_eq_str i collectionID in
  let only_id i := VObj [("id", i)] in
  let added :=
    map only_id
      (if existsb is_target ids then ids else ids ++ [VStr collectionID]) in
  let removed := map only_id (List.filter (fun i => negb (is_target i)) ids) in
  client (sent w) fetch = Fulfilled (VObj folder) ->
  (obj_get "collections" folder = Some (VArr added) ->
   removeFromCollection folderID collectionID callback w
     = fetched_then_saved removed
   /\ addToCollection folderID collectionID callback w
      = fetched_then_saved added)
  /\ (obj_get "collections" folder = Some (VArr removed) ->
      addToCollection folderID collectionID callback w
        = fetched_then_saved (removed ++ [only_id (VStr collectionID)])
      /\ removeFromCollection folderID collectionID callback w
         = fetched_then_saved removed).
Proof.
  intros query fetch save fetched_then_saved is_target only_id added removed
    Hdata.
  assert (Hruns : forall ids' : list value,
    obj_get "collections" folder = Some (VArr (map only_id ids')) ->
    addToCollection folderID collectionID callback w
      = fetched_then_saved
          (map only_id
             (if existsb is_target ids' then ids'
              else ids' ++ [VStr collectionID]))
    /\ removeFromCollection folderID collectionID callback w
       = fetched_then_saved
           (map only_id (List.filter (fun i => negb (is_target i)) ids'))).
  { intros ids' Hfield.
    destruct (map_id_objects ids') as [Hobj Hids].
    fold only_id in Hobj. rewrite <- Hobj in Hfield.
    pose proof (collections_runs folderID collectionID callback folder
                  (map (fun i => [("id", i)]) ids') w Hdata Hfield) as H.
    cbv zeta in H. rewrite Hids in H. exact H. }
  split.
  - intros Hfield. destruct (Hruns _ Hfield) as [Hadd Hremove].
    split.
    + rewrite Hremove. unfold removed, is_target.
      destruct (existsb _ ids); [reflexivity|].
      rewrite filter_target_app. reflexivity.
    + rewrite Hadd. unfold added, is_target.
      destruct (existsb (fun i => strict_eq_str i collectionID) ids) eqn:E.
      * rewrite E. reflexivity.
      * rewrite existsb_target_app. reflexivity.
  - intros Hfield. destruct (Hruns _ Hfield) as [Hadd Hremove].
    split.
    + rewrite Hadd. unfold removed, is_target.
      rewrite existsb_filter_not_target, List.map_app. reflexivity.
    + rewrite Hremove. unfold removed, is_target.
      rewrite (filter_not_target_none _ _ (existsb_filter_not_target _ _)).
      reflexivity.
Qed.

(** X6. The target is compared with [===] to a string: when no fetched
    collection has a string as its id (numbers, say), [addToCollection]
    always appends the target and [removeFromCollection] removes nothing. *)
Theorem collections_non_string_ids folderID collectionID callback
    (folder : obj) (entries : list obj) w :
  let query := [("fields", VStr "collections")] in
  let fetch :=
    mkCall DefaultHandler GET (urlPath [BASE_PATH; folderID])
      (Some (VObj query)) None None AUndefined in
  let save cs :=
    mkCall DefaultHandler PUT (urlPath [BASE_PATH; folderID])
      None (Some (VObj [("collections", VArr cs)])) None AUndefined in
  let fetched_then_saved cs :=
    (settle (client (sent w ++ [fetch]) (save cs)),
     mkWorld (heap w ++ [query; [("collections", VArr cs)]])
       (sent w ++ [fetch; save cs])) in
  let ids := map (obj_read "id") entries in
  let only_id i := VObj [("id", i)] in
  client (sent w) fetch = Fulfilled (VObj folder) ->
  obj_get "collections" folder = Some (VArr (map VObj entries)) ->
  (forall i s, In i ids -> i <> VStr s) ->
  addToCollection folderID collectionID callback w
    = fetched_then_saved (map only_id ids ++ [only_id (VStr collectionID)])
  /\ removeFromCollection folderID collectionID callback w
     = fetched_then_saved (map only_id ids).
Proof.
  intros query fetch save fetched_then_saved ids only_id Hdata Hfield Hids.
  destruct (collections_runs folderID collectionID callback folder entries w
              Hdata Hfield) as [Hadd Hremove].
  fold ids in Hadd, Hremove.
  assert (Hnone : existsb (fun i => strict_eq_str i collectionID) ids = false).
  { destruct (existsb _ ids) eqn:E; [|reflexivity].
    apply List.existsb_exists in E. destruct E as [i [Hin Ht]].
    apply strict_eq_str_true in Ht. exfalso. exact (Hids i _ Hin Ht). }
  split.
  - rewrite Hadd, Hnone, List.map_app. reflexivity.
  - rewrite Hremove, (filter_not_target_none _ _ Hnone). reflexivity.
Qed.


(** The methods that take an options object, on an object of the store. *)
Lemma update_with_etag folderID l (o : obj) callback w :
  heap w !! l = Some o ->
  truthy (obj_read "etag" o) = true ->
  update folderID (ARef l) callback w
  = settled_by
      (mkCall DefaultHandler PUT (urlPath [BASE_PATH; folderID]) None
         (Some (VObj (obj_delete "etag" o)))
         (Some (VObj [("If-Match", obj_read "etag" o)])) callback)
      (<[l := obj_delete "etag" o]> (heap w)) w.
Proof.
  intros Hl Ht.
  assert (Hw : <[l := obj_delete "etag" o]> (heap w) !! l
               = Some (obj_delete "etag" o)) by (eapply lookup_written, Hl).
  unfold Folders.update, bind.
  rewrite (arg_and_get_ref _ _ _ _ Hl), Ht.
  rewrite (arg_get_ref _ _ _ _ Hl), (arg_delete_ref _ _ _ _ Hl).
  unfold ret. send.
Qed.

Lemma delete_with_etag folderID l (o : obj) callback w :
  heap w !! l = Some o ->
  truthy (obj_read "etag" o) = true ->
  delete folderID (ARef l) callback w
  = settled_by
      (mkCall DefaultHandler DELETE (urlPath [BASE_PATH; folderID])
         (Some (VObj (obj_delete "etag" o))) None
         (Some (VObj [("If-Match", obj_read "etag" o)])) callback)
      (<[l := obj_delete "etag" o]> (heap w)) w.
Proof.
  intros Hl Ht.
  assert (Hw : <[l := obj_delete "etag" o]> (heap w) !! l
               = Some (obj_delete "etag" o)) by (eapply lookup_written, Hl).
  unfold Folders.delete, bind.
  rewrite (arg_and_get_ref _ _ _ _ Hl), Ht.
  rewrite (arg_get_ref _ _ _ _ Hl), (arg_delete_ref _ _ _ _ Hl).
  unfold ret. send.
Qed.

Lemma update_falsy_etag folderID l (o : obj) callback w :
  heap w !! l = Some o ->
  truthy (obj_read "etag" o) = false ->
  update folderID (ARef l) callback w
  = settled_by
      (mkCall DefaultHandler PUT (urlPath [BASE_PATH; folderID]) None
         (Some (VObj o)) None callback)
      (heap w) w.
Proof.
  intros Hl Ht. unfold Folders.update, bind.
  rewrite (arg_and_get_ref _ _ _ _ Hl), Ht. unfold ret. send.
Qed.

Lemma delete_falsy_etag folderID l (o : obj) callback w :
  heap w !! l = Some o ->
  truthy (obj_read "etag" o) = false ->
  delete folderID (ARef l) callback w
  = settled_by
      (mkCall DefaultHandler DELETE (urlPath [BASE_PATH; folderID])
         (Some (VObj o)) None None callback)
      (heap w) w.
Proof.
  intros Hl Ht. unfold Folders.delete, bind.
  rewrite (arg_and_get_ref _ _ _ _ Hl), Ht. unfold ret. send.
Qed.

Lemma deletePermanently_object folderID l (o : obj) callback w :
  heap w !! l = Some o ->
  deletePermanently folderID (ARef l) callback w
  = settled_by
      (mkCall DefaultHandler DELETE (urlPath [BASE_PATH; folderID; "/trash"])
         None None
         (if truthy (obj_read "etag" o)
          then Some (VObj [("If-Match", obj_read "etag" o)])
          else None)
         callback)
      (heap w) w.
Proof.
  intros Hl. unfold Folders.deletePermanently, bind, ret.
  cbn [is_function arg_truthy fst snd].
  rewrite (arg_and_get_ref _ _ _ _ Hl).
  destruct (truthy (obj_read "etag" o)).
  - rewrite (arg_get_ref _ _ _ _ Hl). send.
  - send.
Qed.

Lemma copy_object folderID newParentID l (o : obj) callback w :
  heap w !! l = Some o ->
  let body := obj_set "parent" (VObj [("id", VStr newParentID)]) o in
  copy folderID newParentID (ARef l) callback w
  = settled_by
      (mkCall DefaultHandler POST (urlPath [BASE_PATH; folderID; "/copy"])
         None (Some (VObj body)) None callback)
      (<[l := body]> (heap w)) w.
Proof.
  intros Hl body. unfold Folders.copy, bind, ret.
  cbn [is_function arg_truthy fst snd].
  rewrite (arg_set_ref _ _ _ _ _ Hl).
  assert (Hw : <[l := body]> (heap w) !! l = Some body)
    by (eapply lookup_written, Hl).
  send.
Qed.

Lemma restoreFromTrash_object folderID l (o : obj) callback w :
  heap w !! l = Some o ->
  let body :=
    if truthy (obj_read "parent_id" o)
    then obj_delete "parent_id"
           (obj_set "parent" (VObj [("id", obj_read "parent_id" o)]) o)
    else o in
  restoreFromTrash folderID (ARef l) callback w
  = settled_by
      (mkCall DefaultHandler POST (urlPath [BASE_PATH; folderID])
         None (Some (VObj body)) None callback)
      (<[l := body]> (heap w)) w.
Proof.
  intros Hl body. unfold Folders.restoreFromTrash, bind.
  rewrite (arg_and_get_ref _ _ _ _ Hl). subst body.
  destruct (truthy (obj_read "parent_id" o)).
  - rewrite (arg_get_ref _ _ _ _ Hl), (arg_set_ref _ _ _ _ _ Hl).
    erewrite arg_delete_ref by (eapply lookup_written, Hl).
    cbn [heap sent arg_truthy]. rewrite list_insert_insert_eq.
    match goal with |- context [<[l := ?b]> (heap w)] =>
      assert (Hw : <[l := b]> (heap w) !! l = Some b)
        by (eapply lookup_written, Hl) end.
    send.
  - unfold ret. cbn [arg_truthy]. rewrite (list_insert_id _ _ _ Hl). send.
Qed.

Lemma obj_replace_replace k v1 v2 (o : obj) :
  obj_replace k v2 (obj_replace k v1 o) = obj_replace k v2 o.
Proof.
  induction o as [|[k1 x] o IH]; [reflexivity|]. cbn [obj_replace].
  destruct (String.eqb k1 k) eqn:E; cbn [obj_replace].
  - rewrite String.eqb_refl. reflexivity.
  - rewrite E, IH. reflexivity.
Qed.

Lemma obj_replace_insert_index n k v1 v2 (o : obj) :
  obj_get k o = None ->
  obj_replace k v2 (obj_insert_index n k v1 o) = obj_insert_index n k v2 o.
Proof.
  induction o as [|[k1 x] o IH]; cbn [obj_get obj_insert_index obj_replace].
  - rewrite String.eqb_refl. reflexivity.
  - destruct (String.eqb k1 k) eqn:E; [discriminate|]. intros Hn.
    destruct (array_index k1) as [m|]; [destruct (m <? n)%N|];
      cbn [obj_replace]; rewrite ?E, ?String.eqb_refl, ?(IH Hn); reflexivity.
Qed.

Lemma obj_replace_app_new k v1 v2 (o : obj) :
  obj_get k o = None ->
  obj_replace k v2 (o ++ [(k, v1)]) = o ++ [(k, v2)].
Proof.
  induction o as [|[k1 x] o IH]; cbn [obj_get obj_replace app].
  - rewrite String.eqb_refl. reflexivity.
  - destruct (String.eqb k1 k) eqn:E; [discriminate|]. intros Hn.
    rewrite (IH Hn). reflexivity.
Qed.

(** Assigning a property twice is assigning the second value. *)
Lemma obj_set_set k v1 v2 (o : obj) :
  obj_set k v2 (obj_set k v1 o) = obj_set k v2 o.
Proof.
  assert (Hhas : obj_has k (obj_set k v1 o) = true)
    by (unfold obj_has; rewrite obj_get_set_eq; reflexivity).
  unfold obj_set at 1. rewrite Hhas. unfold obj_set.
  destruct (obj_has k o) eqn:E.
  - apply obj_replace_replace.
  - assert (Hn : obj_get k o = None)
      by (unfold obj_has in E; destruct (obj_get k o);
          [discriminate|reflexivity]).
    destruct (array_index k).
    + apply obj_replace_insert_index, Hn.
    + apply obj_replace_app_new, Hn.
Qed.


(** X7. [update] and [delete] use up the etag of the object they are given:
    after a first call with a truthy etag, a second [update] or [delete] with
    the same object carries no [If-Match] header and sends the object
    without its etag. *)
Theorem etag_used_once folderID l (o : obj) callback w :
  heap w !! l = Some o ->
  truthy (obj_read "etag" o) = true ->
  let path := urlPath [BASE_PATH; folderID] in
  let stripped := obj_delete "etag" o in
  let put hd :=
    mkCall DefaultHandler PUT path None (Some (VObj stripped)) hd callback in
  let del hd :=
    mkCall DefaultHandler DELETE path (Some (VObj stripped)) None hd
      callback in
  let if_match := Some (VObj [("If-Match", obj_read "etag" o)]) in
  let after_update := snd (update folderID (ARef l) callback w) in
  let after_delete := snd (delete folderID (ARef l) callback w) in
  sent after_update = sent w ++ [put if_match]
  /\ sent after_delete = sent w ++ [del if_match]
  /\ update folderID (ARef l) callback after_update
     = settled_by (put None) (heap after_update) after_update
  /\ delete folderID (ARef l) callback after_update
     = settled_by (del None) (heap after_update) after_update
  /\ delete folderID (ARef l) callback after_delete
     = settled_by (del None) (heap after_delete) after_delete.
Proof.
  intros Hl Ht path stripped put del if_match after_update after_delete.
  assert (Hstripped : truthy (obj_read "etag" stripped) = false)
    by (unfold stripped;
        rewrite (obj_read_none _ _ (obj_get_delete_eq _ _)); reflexivity).
  assert (Hu : heap after_update !! l = Some stripped)
    by (unfold after_update; rewrite (update_with_etag _ _ _ _ _ Hl Ht);
        eapply lookup_written, Hl).
  assert (Hd : heap after_delete !! l = Some stripped)
    by (unfold after_delete; rewrite (delete_with_etag _ _ _ _ _ Hl Ht);
        eapply lookup_written, Hl).
  conjuncts.
  - unfold after_update. rewrite (update_with_etag _ _ _ _ _ Hl Ht).
    reflexivity.
  - unfold after_delete. rewrite (delete_with_etag _ _ _ _ _ Hl Ht).
    reflexivity.
  - apply (update_falsy_etag _ _ _ _ _ Hu Hstripped).
  - apply (delete_falsy_etag _ _ _ _ _ Hu Hstripped).
  - apply (delete_falsy_etag _ _ _ _ _ Hd Hstripped).
Qed.

(** X8. [deletePermanently] can be repeated with the same options object:
    it leaves the store as it is, and a second call sends the same request,
    [If-Match] header included, as the first. *)
Theorem deletePermanently_repeatable folderID l (o : obj) callback w :
  heap w !! l = Some o ->
  let first := deletePermanently folderID (ARef l) callback w in
  let second := deletePermanently folderID (ARef l) callback (snd first) in
  heap (snd first) = heap w
  /\ heap (snd second) = heap w
  /\ exists c,
       sent (snd first) = sent w ++ [c]
       /\ sent (snd second) = sent w ++ [c; c]
       /\ call_headers c
          = (if truthy (obj_read "etag" o)
             then Some (VObj [("If-Match", obj_read "etag" o)])
             else None).
Proof.
  intros Hl first second.
  assert (Hfirst : first = _) by apply (deletePermanently_object _ _ _ _ _ Hl).
  assert (Hl1 : heap (snd first) !! l = Some o)
    by (rewrite Hfirst; exact Hl).
  assert (Hsecond : second = _)
    by apply (deletePermanently_object _ _ _ _ _ Hl1).
  rewrite Hsecond, Hfirst. conjuncts; try reflexivity.
  eexists. conjuncts; [reflexivity| |reflexivity].
  cbn [Folders.settled_by snd sent]. rewrite <- app_assoc. reflexivity.
Qed.

(** X9. [copy] has no etag handling and its options can be used again: an
    [etag] in the options goes out in the body, never as a header; a second
    [copy] with the same options object, to another parent, sends the
    original options with [parent] set to the new parent. *)
Theorem copy_again folderID newParentID otherParentID l (o : obj) callback w :
  heap w !! l = Some o ->
  let parent id := VObj [("id", VStr id)] in
  let post b :=
    mkCall DefaultHandler POST (urlPath [BASE_PATH; folderID; "/copy"])
      None (Some (VObj b)) None callback in
  let first := copy folderID newParentID (ARef l) callback w in
  let body := obj_set "parent" (parent newParentID) o in
  let other := obj_set "parent" (parent otherParentID) o in
  first = settled_by (post body) (<[l := body]> (heap w)) w
  /\ obj_get "etag" body = obj_get "etag" o
  /\ copy folderID otherParentID (ARef l) callback (snd first)
     = settled_by (post other) (<[l := other]> (heap w)) (snd first).
Proof.
  intros Hl parent post first body other.
  assert (Hfirst : first = settled_by (post body) (<[l := body]> (heap w)) w)
    by apply (copy_object _ _ _ _ _ _ Hl).
  assert (Hl1 : heap (snd first) !! l = Some body)
    by (rewrite Hfirst; eapply lookup_written, Hl).
  conjuncts.
  - exact Hfirst.
  - apply obj_get_set_ne. discriminate.
  - rewrite (copy_object _ _ _ _ _ _ Hl1). unfold body.
    rewrite obj_set_set. fold other. rewrite Hfirst.
    cbn [Folders.settled_by snd heap]. rewrite list_insert_insert_eq.
    reflexivity.
Qed.

(** X10. [restoreFromTrash] consumes [parent_id]: after a call with a truthy
    [parent_id], the options object has [parent] and no [parent_id], and a
    second call with it sends the same body and changes nothing more. *)
Theorem restoreFromTrash_again folderID l (o : obj) callback w :
  heap w !! l = Some o ->
  truthy (obj_read "parent_id" o) = true ->
  let post b :=
    mkCall DefaultHandler POST (urlPath [BASE_PATH; folderID])
      None (Some (VObj b)) None callback in
  let renamed :=
    obj_delete "parent_id"
      (obj_set "parent" (VObj [("id", obj_read "parent_id" o)]) o) in
  let first := restoreFromTrash folderID (ARef l) callback w in
  first = settled_by (post renamed) (<[l := renamed]> (heap w)) w
  /\ restoreFromTrash folderID (ARef l) callback (snd first)
     = settled_by (post renamed) (<[l := renamed]> (heap w)) (snd first).
Proof.
  intros Hl Ht post renamed first.
  assert (Hfirst : first
                   = settled_by (post renamed) (<[l := renamed]> (heap w)) w).
  { unfold first. rewrite (restoreFromTrash_object _ _ _ _ _ Hl).
    cbv zeta. rewrite Ht. reflexivity. }
  assert (Hl1 : heap (snd first) !! l = Some renamed)
    by (rewrite Hfirst; eapply lookup_written, Hl).
  assert (Hdone : truthy (obj_read "parent_id" renamed) = false)
    by (unfold renamed;
        rewrite (obj_read_none _ _ (obj_get_delete_eq _ _)); reflexivity).
  split; [exact Hfirst|].
  rewrite (restoreFromTrash_object _ _ _ _ _ Hl1). cbv zeta.
  rewrite Hdone, Hfirst. cbn [Folders.settled_by snd heap].
  rewrite list_insert_insert_eq. reflexivity.
Qed.


Lemma strict_eq_num_true v n : strict_eq_num v n = true -> v = VNum n.
Proof.
  destruct v; try discriminate. cbn [strict_eq_num]. intros H.
  apply Z.eqb_eq in H. subst. reflexivity.
Qed.

(** [setMetadata], for every way the client may settle the POST. *)
Lemma setMetadata_run folderID scope template l (md : obj) callback w :
  heap w !! l = Some md ->
  let path := urlPath [BASE_PATH; folderID; "metadata"; scope; template] in
  let add :=
    mkCall DefaultHandler POST path None (Some (VObj md)) None AUndefined in
  let upd :=
    mkCall DefaultHandler PUT path None
      (Some (VArr (map (fun key => Folders.patch_entry key (obj_read key md))
                     (obj_keys md))))
      (Some (VObj [("Content-Type", VStr "application/json-patch+json")]))
      AUndefined in
  let once := mkWorld (heap w) (sent w ++ [add]) in
  setMetadata folderID scope template (ARef l) callback w
  = match client (sent w) add with
    | Fulfilled v => (Resolved v, once)
    | Failed err =>
        match get_prop err "statusCode" with
        | inl e => (Rejected e, once)
        | inr code =>
            if strict_eq_num code 409
            then (settle (client (sent w ++ [add]) upd),
                  mkWorld (heap w) (sent w ++ [add; upd]))
            else (Rejected (Thrown err), once)
        end
    end.
Proof.
  intros Hl path add upd once.
  assert (Hadd : Folders.addMetadata urlPath client folderID scope template
                   (ARef l) AUndefined w
                 = settled_by add (heap w) w)
    by (unfold Folders.addMetadata; send).
  unfold Folders.setMetadata, asCallback, catch. rewrite Hadd.
  unfold Folders.settled_by. fold once.
  destruct (client (sent w) add) as [v|err]; [reflexivity|].
  cbn [settle reason_prop].
  destruct (get_prop err "statusCode") as [e|code]; [reflexivity|].
  cbn [lift]. unfold bind at 1. unfold ret at 1.
  destruct (strict_eq_num code 409); [|reflexivity]. cbn [negb].
  unfold bind at 1. unfold object_keys, bind at 1, read, ret at 1.
  cbn [heap once]. rewrite Hl. unfold bind at 1.
  erewrite map_keys_patch by exact Hl.
  unfold Folders.updateMetadata. erewrite request_at by reflexivity.
  unfold Folders.settled_by. subst once. cbn [heap sent].
  rewrite <- app_assoc. reflexivity.
Qed.

(** X13. However the client answers, [setMetadata] makes one call or two,
    the first being the POST; the second, the PUT, is made exactly when the
    POST fails with status code 409; and the metadata object and the rest of
    the store are left as they were. *)
Theorem setMetadata_bounded folderID scope template l (md : obj) callback w :
  heap w !! l = Some md ->
  let path := urlPath [BASE_PATH; folderID; "metadata"; scope; template] in
  let add :=
    mkCall DefaultHandler POST path None (Some (VObj md)) None AUndefined in
  let upd :=
    mkCall DefaultHandler PUT path None
      (Some (VArr (map (fun key => Folders.patch_entry key (obj_read key md))
                     (obj_keys md))))
      (Some (VObj [("Content-Type", VStr "application/json-patch+json")]))
      AUndefined in
  let after := snd (setMetadata folderID scope template (ARef l) callback w) in
  heap after = heap w
  /\ (sent after = sent w ++ [add] \/ sent after = sent w ++ [add; upd])
  /\ (sent after = sent w ++ [add; upd] <->
      exists err,
        client (sent w) add = Failed err
        /\ get_prop err "statusCode" = inr (VNum 409)).
Proof.
  intros Hl path add upd after.
  assert (Hne : sent w ++ [add] <> sent w ++ [add; upd])
    by (intros H; apply app_inv_head in H; discriminate).
  unfold after. rewrite (setMetadata_run _ _ _ _ _ _ _ Hl). fold path add upd.
  destruct (client (sent w) add) as [v|err].
  - cbn [snd heap sent]. conjuncts; [reflexivity|left; reflexivity|].
    split; [intros H; exfalso; exact (Hne H)|].
    intros [err [H _]]. discriminate.
  - destruct (get_prop err "statusCode") as [e|code] eqn:Hcode.
    + cbn [snd heap sent]. conjuncts; [reflexivity|left; reflexivity|].
      split; [intros H; exfalso; exact (Hne H)|].
      intros [err' [H H']]. inversion H; subst. rewrite Hcode in H'.
      discriminate.
    + destruct (strict_eq_num code 409) eqn:E.
      * cbn [snd heap sent]. conjuncts; [reflexivity|right; reflexivity|].
        split; [|reflexivity]. intros _. exists err.
        split; [reflexivity|].
        rewrite Hcode, (strict_eq_num_true _ _ E). reflexivity.
      * cbn [snd heap sent]. conjuncts; [reflexivity|left; reflexivity|].
        split; [intros H; exfalso; exact (Hne H)|].
        intros [err' [H H']]. inversion H; subst. rewrite Hcode in H'.
        inversion H'; subst. discriminate.
Qed.

(** X14. When the POST of [setMetadata] is rejected with [null] or
    [undefined], reading the status code of the error throws: the promise
    rejects with a TypeError in place of the rejection value, and no second
    call is made. *)
Theorem setMetadata_nullish_error folderID scope template l (md : obj)
    callback err w :
  heap w !! l = Some md ->
  let add :=
    mkCall DefaultHandler POST
      (urlPath [BASE_PATH; folderID; "metadata"; scope; template])
      None (Some (VObj md)) None AUndefined in
  client (sent w) add = Failed err ->
  nullish err = true ->
  setMetadata folderID scope template (ARef l) callback w
  = (Rejected TypeError, mkWorld (heap w) (sent w ++ [add])).
Proof.
  intros Hl add Herr Hnull.
  rewrite (setMetadata_run _ _ _ _ _ _ _ Hl). fold add. rewrite Herr.
  destruct err; try discriminate; reflexivity.
Qed.

(** [getWatermark], for every way the client may settle the GET. *)
Lemma getWatermark_run folderID options callback q w :
  deref (heap w) options = Some q ->
  let rq :=
    mkCall Raw GET (urlPath [BASE_PATH; folderID; WATERMARK_SUBRESOURCE])
      (Some q) None None AUndefined in
  let once := mkWorld (heap w) (sent w ++ [rq]) in
  getWatermark folderID options callback w
  = match client (sent w) rq with
    | Failed err => (Rejected (Thrown err), once)
    | Fulfilled response =>
        match get_prop response "statusCode" with
        | inl e => (Rejected e, once)
        | inr code =>
            if strict_eq_num code 200
            then match get_prop response "body" with
                 | inl e => (Rejected e, once)
                 | inr body =>
                     match get_prop body "watermark" with
                     | inl e => (Rejected e, once)
                     | inr watermark => (Resolved watermark, once)
                     end
                 end
            else (Rejected (Thrown (buildUnexpectedResponseError response)),
                  once)
        end
    end.
Proof.
  intros Hq rq once.
  unfold Folders.getWatermark, asCallback. unfold bind at 1.
  erewrite request_at;
    [| apply snapshot_shared, Hq | reflexivity | reflexivity ].
  unfold Folders.settled_by. fold rq once.
  destruct (client (sent w) rq) as [response|err]; [|reflexivity].
  cbn [settle].
  destruct (get_prop response "statusCode") as [e|code]; [reflexivity|].
  cbn [lift]. unfold bind at 1. unfold ret at 1.
  destruct (strict_eq_num code 200); [|reflexivity]. cbn [negb].
  destruct (get_prop response "body") as [e|body]; [reflexivity|].
  cbn [lift]. unfold bind, ret.
  destruct (get_prop body "watermark"); reflexivity.
Qed.

(** X15. When the GET of [getWatermark] itself fails, the promise rejects
    with the client's error as it is: no "unexpected response" error is
    built, and there is one call, made without the callback. *)
Theorem getWatermark_client_failure folderID options callback q err w :
  deref (heap w) options = Some q ->
  let rq :=
    mkCall Raw GET (urlPath [BASE_PATH; folderID; WATERMARK_SUBRESOURCE])
      (Some q) None None AUndefined in
  client (sent w) rq = Failed err ->
  getWatermark folderID options callback w
  = (Rejected (Thrown err), mkWorld (heap w) (sent w ++ [rq])).
Proof.
  intros Hq rq Herr. rewrite (getWatermark_run _ _ _ _ _ Hq). fold rq.
  rewrite Herr. reflexivity.
Qed.

(** X16. [getWatermark] rejects with a TypeError when the client fulfils
    the GET with [null] or [undefined] in place of a response, or with a
    200 response whose body is [null] or [undefined]. *)
Theorem getWatermark_malformed folderID options callback q response w :
  deref (heap w) options = Some q ->
  let rq :=
    mkCall Raw GET (urlPath [BASE_PATH; folderID; WATERMARK_SUBRESOURCE])
      (Some q) None None AUndefined in
  client (sent w) rq = Fulfilled response ->
  nullish response = true
  \/ (exists body,
        get_prop response "statusCode" = inr (VNum 200)
        /\ get_prop response "body" = inr body
        /\ nullish body = true) ->
  getWatermark folderID options callback w
  = (Rejected TypeError, mkWorld (heap w) (sent w ++ [rq])).
Proof.
  intros Hq rq Hrq Hbad. rewrite (getWatermark_run _ _ _ _ _ Hq). fold rq.
  rewrite Hrq. destruct Hbad as [Hnull|[body [Hcode [Hbody Hnull]]]].
  - destruct response; try discriminate; reflexivity.
  - rewrite Hcode, Hbody. cbn [strict_eq_num Z.eqb Pos.eqb].
    destruct body; try discriminate; reflexivity.
Qed.


Lemma deref_ref (h : list obj) l o :
  h !! l = Some o -> deref h (ARef l) = Some (VObj o).
Proof. intros H. unfold deref. rewrite H. reflexivity. Qed.

Lemma getWatermark_world folderID options callback q w :
  deref (heap w) options = Some q ->
  snd (getWatermark folderID options callback w)
  = mkWorld (heap w)
      (sent w ++
       [mkCall Raw GET (urlPath [BASE_PATH; folderID; WATERMARK_SUBRESOURCE])
          (Some q) None None AUndefined]).
Proof.
  intros Hq. rewrite (getWatermark_run _ _ _ _ _ Hq).
  repeat match goal with
         | |- context [match ?x with _ => _ end] => destruct x
         end; reflexivity.
Qed.

Lemma obj_has_set k k' v (o : obj) :
  obj_has k' (obj_set k v o) = (String.eqb k k' || obj_has k' o)%bool.
Proof.
  unfold obj_has. destruct (String.eqb_spec k k') as [<-|Hne].
  - rewrite obj_get_set_eq. reflexivity.
  - rewrite obj_get_set_ne by congruence. reflexivity.
Qed.

Lemma obj_has_cons k k1 v1 (o : obj) :
  obj_has k ((k1, v1) :: o) = (String.eqb k1 k || obj_has k o)%bool.
Proof.
  unfold obj_has. cbn [obj_get]. destruct (String.eqb k1 k); reflexivity.
Qed.

(** The keys after [Object.assign] are those of the target and those of the
    source. *)
Lemma obj_has_assign k (source target : obj) :
  obj_has k (obj_assign target source)
  = (obj_has k target || obj_has k source)%bool.
Proof.
  unfold obj_assign. revert target.
  induction source as [|[k1 v1] source IH]; intros target; cbn [fold_left].
  - rewrite orb_false_r. reflexivity.
  - rewrite IH. cbn [fst snd]. rewrite obj_has_set, obj_has_cons.
    destruct (String.eqb k1 k), (obj_has k target), (obj_has k source);
      reflexivity.
Qed.

(** X11. Outside [copy] and [deletePermanently] no method takes a callback
    in the options position: a callable passed as options is forwarded as
    the query or body (or ignored, by [applyWatermark]) and the callback of
    the call stays the one given. *)
Theorem callable_options_not_shuffled folderID f callback w :
  let sends c := settled_by c (heap w) w in
  let fn := Some (VFunction f) in
  let folder := urlPath [BASE_PATH; folderID] in
  get folderID (AFunction f) callback w
    = sends (mkCall DefaultHandler GET folder fn None None callback)
  /\ getItems folderID (AFunction f) callback w
     = sends (mkCall DefaultHandler GET
                (urlPath [BASE_PATH; folderID; "/items"]) fn None None
                callback)
  /\ getCollaborations folderID (AFunction f) callback w
     = sends (mkCall DefaultHandler GET
                (urlPath [BASE_PATH; folderID; "/collaborations"]) fn None
                None callback)
  /\ getTrashedFolder folderID (AFunction f) callback w
     = sends (mkCall DefaultHandler GET
                (urlPath [BASE_PATH; folderID; "trash"]) fn None None
                callback)
  /\ update folderID (AFunction f) callback w
     = sends (mkCall DefaultHandler PUT folder None fn None callback)
  /\ delete folderID (AFunction f) callback w
     = sends (mkCall DefaultHandler DELETE folder fn None None callback)
  /\ restoreFromTrash folderID (AFunction f) callback w
     = sends (mkCall DefaultHandler POST folder None fn None callback)
  /\ applyWatermark folderID (AFunction f) callback w
     = sends (mkCall DefaultHandler PUT
                (urlPath [BASE_PATH; folderID; WATERMARK_SUBRESOURCE]) None
                (Some (VObj [("watermark",
                              VObj [("imprint", VStr "default")])]))
                None callback)
  /\ snd (getWatermark folderID (AFunction f) callback w)
     = mkWorld (heap w)
         (sent w ++
          [mkCall Raw GET
             (urlPath [BASE_PATH; folderID; WATERMARK_SUBRESOURCE]) fn None
             None AUndefined]).
Proof.
  intros sends fn folder. conjuncts; try reflexivity.
  apply getWatermark_world. reflexivity.
Qed.

(** X12. [get], [getItems], [getCollaborations], [getTrashedFolder] and
    [getWatermark] forward the options object whole as the query, an [etag]
    key included, send no header, and leave the object and the store as
    they were. *)
Theorem options_forwarded_as_query folderID l (o : obj) callback w :
  heap w !! l = Some o ->
  let sends path :=
    settled_by
      (mkCall DefaultHandler GET path (Some (VObj o)) None None callback)
      (heap w) w in
  get folderID (ARef l) callback w = sends (urlPath [BASE_PATH; folderID])
  /\ getItems folderID (ARef l) callback w
     = sends (urlPath [BASE_PATH; folderID; "/items"])
  /\ getCollaborations folderID (ARef l) callback w
     = sends (urlPath [BASE_PATH; folderID; "/collaborations"])
  /\ getTrashedFolder folderID (ARef l) callback w
     = sends (urlPath [BASE_PATH; folderID; "trash"])
  /\ snd (getWatermark folderID (ARef l) callback w)
     = mkWorld (heap w)
         (sent w ++
          [mkCall Raw GET
             (urlPath [BASE_PATH; folderID; WATERMARK_SUBRESOURCE])
             (Some (VObj o)) None None AUndefined]).
Proof.
  intros Hl sends. conjuncts.
  - unfold Folders.get. send.
  - unfold Folders.getItems. send.
  - unfold Folders.getCollaborations. send.
  - unfold Folders.getTrashedFolder. send.
  - apply getWatermark_world, deref_ref, Hl.
Qed.

(** X17. [applyWatermark] reads the caller's options without changing them
    or the store, and the watermark it sends has the key [imprint] and the
    keys of the options, and no other. *)
Theorem applyWatermark_keys folderID l (o : obj) callback w :
  heap w !! l = Some o ->
  let watermark := obj_assign [("imprint", VStr "default")] o in
  applyWatermark folderID (ARef l) callback w
    = settled_by
        (mkCall DefaultHandler PUT
           (urlPath [BASE_PATH; folderID; WATERMARK_SUBRESOURCE]) None
           (Some (VObj [("watermark", VObj watermark)])) None callback)
        (heap w) w
  /\ forall k,
       obj_has k watermark = (String.eqb "imprint" k || obj_has k o)%bool.
Proof.
  intros Hl watermark. split.
  - unfold Folders.applyWatermark, object_assign, bind, read, ret.
    rewrite Hl. send.
  - intros k. unfold watermark. rewrite obj_has_assign, obj_has_cons.
    destruct ("imprint" =? k)%string; reflexivity.
Qed.

(** X18. [move] is [update] with the updates [{parent: {id: newParentID}}]:
    the same call is made and the promise settles alike; [move] itself
    leaves the store untouched. *)
Theorem move_is_update folderID newParentID callback w :
  let updates := [("parent", VObj [("id", VStr newParentID)])] in
  let moved := move folderID newParentID callback w in
  let updated :=
    update folderID (ARef (length (heap w))) callback
      (mkWorld (heap w ++ [updates]) (sent w)) in
  fst moved = fst updated
  /\ sent (snd moved) = sent (snd updated)
  /\ heap (snd moved) = heap w.
Proof.
  intros updates moved updated.
  assert (Hupdated : updated = _)
    by (apply (update_without_etag folderID (length (heap w)) updates
                 callback (heap w ++ [updates]) (sent w));
        [apply lookup_alloc|reflexivity]).
  rewrite Hupdated. conjuncts; reflexivity.
Qed.



(** X20. [addMetadata] on its own does not recover from a conflict: when
    the POST fails, with status code 409 or any other error, the promise
    rejects with that error after the one call, which carries the
    caller's callback; the data object is sent whole and left unchanged. *)
Theorem addMetadata_no_recovery folderID scope template l (data : obj)
    callback err w :
  heap w !! l = Some data ->
  let add :=
    mkCall DefaultHandler POST
      (urlPath [BASE_PATH; folderID; "metadata"; scope; template])
      None (Some (VObj data)) None callback in
  client (sent w) add = Failed err ->
  addMetadata folderID scope template (ARef l) callback w
  = (Rejected (Thrown err), mkWorld (heap w) (sent w ++ [add])).
Proof.
  intros Hl add Herr. unfold Folders.addMetadata.
  erewrite request_at;
    [| reflexivity | eapply snapshot_ref, Hl | reflexivity ].
  unfold Folders.settled_by. fold add. rewrite Herr. reflexivity.
Qed.

(** X21. [update] and [delete] accept [undefined] and [null] in place of
    the updates or options: the guard on the etag keeps them from reading a
    property of it, one call is made with that value as body or query, and
    no header. *)
Theorem missing_options_tolerated folderID callback w :
  let folder := urlPath [BASE_PATH; folderID] in
  let sends c := settled_by c (heap w) w in
  update folderID AUndefined callback w
    = sends (mkCall DefaultHandler PUT folder None (Some VUndefined) None
               callback)
  /\ update folderID ANull callback w
     = sends (mkCall DefaultHandler PUT folder None (Some VNull) None
                callback)
  /\ delete folderID AUndefined callback w
     = sends (mkCall DefaultHandler DELETE folder (Some VUndefined) None None
                callback)
  /\ delete folderID ANull callback w
     = sends (mkCall DefaultHandler DELETE folder (Some VNull) None None
                callback).
Proof. intros folder sends. conjuncts; reflexivity. Qed.

(** X22. [setMetadata] called with [undefined] or [null] as metadata sends
    it in the POST; when that fails with status code 409 the keys of the
    metadata cannot be listed: the promise rejects with a TypeError and no
    PUT is made. *)
Theorem setMetadata_missing_metadata folderID scope template callback err w :
  let path := urlPath [BASE_PATH; folderID; "metadata"; scope; template] in
  let add b := mkCall DefaultHandler POST path None (Some b) None AUndefined in
  get_prop err "statusCode" = inr (VNum 409) ->
  (client (sent w) (add VUndefined) = Failed err ->
   setMetadata folderID scope template AUndefined callback w
   = (Rejected TypeError, mkWorld (heap w) (sent w ++ [add VUndefined])))
  /\ (client (sent w) (add VNull) = Failed err ->
      setMetadata folderID scope template ANull callback w
      = (Rejected TypeError, mkWorld (heap w) (sent w ++ [add VNull]))).
Proof.
  intros path add Hcode. split; intros Herr.
  - unfold Folders.setMetadata, asCallback, catch, Folders.addMetadata.
    erewrite request_at by reflexivity. unfold Folders.settled_by.
    fold path. fold (add VUndefined). rewrite Herr.
    cbn [settle reason_prop]. rewrite Hcode. reflexivity.
  - unfold Folders.setMetadata, asCallback, catch, Folders.addMetadata.
    erewrite request_at by reflexivity. unfold Folders.settled_by.
    fold path. fold (add VNull). rewrite Herr.
    cbn [settle reason_prop]. rewrite Hcode. reflexivity.
Qed.

End Properties.

(** ** The theorems at concrete inputs *)

(** [update] of [{name: "n", etag: "v1"}]: the header carries the etag and
    the body has lost it. *)
Lemma update_delete_if_match_witness :
  let o := [("name", VStr "n"); ("etag", VStr "v1")] in
  let w := mkWorld [o] [] in
  heap w !! 0 = Some o
  /\ obj_get "etag" o = Some (VStr "v1")
  /\ truthy (VStr "v1") = true
  /\ Folders.update join_segments always_ok "12" (ARef 0) AUndefined w
     = (Resolved (VObj []),
        mkWorld [[("name", VStr "n")]]
          [mkCall DefaultHandler PUT "/folders/12" None
             (Some (VObj [("name", VStr "n")]))
             (Some (VObj [("If-Match", VStr "v1")])) AUndefined]).
Proof.
  split; [reflexivity|]. split; [reflexivity|]. split; [reflexivity|].
  exact (proj1 (proj1 (update_delete_if_match join_segments always_ok "12" 0
                         [("name", VStr "n"); ("etag", VStr "v1")]
                         AUndefined
                         (mkWorld [[("name", VStr "n"); ("etag", VStr "v1")]] [])
                         eq_refl)
                 (VStr "v1") eq_refl eq_refl)).
Defined.

(** C3, as stated, fails for [update] of [{etag: "", name: "n"}]: the input
    has an [etag] key, yet the request has no [If-Match] header and its body
    still has the [etag] field. *)
Lemma update_empty_etag_counterexample :
  let o := [("etag", VStr ""); ("name", VStr "n")] in
  let sent_call :=
    mkCall DefaultHandler PUT "/folders/12" None (Some (VObj o)) None
      AUndefined in
  obj_has "etag" o = true
  /\ Folders.update join_segments always_ok "12" (ARef 0) AUndefined
       (mkWorld [o] [])
     = (Resolved (VObj []), mkWorld [o] [sent_call])
  /\ call_headers sent_call = None
  /\ call_body sent_call = Some (VObj o).
Proof. repeat split. Qed.

(** [copy] and [delete] change the caller's object, [deletePermanently]
    does not. *)
Lemma options_object_after_call_witness :
  let o := [("name", VStr "n"); ("etag", VStr "v1")] in
  let w := mkWorld [o] [] in
  heap w !! 0 = Some o
  /\ heap (snd (Folders.copy join_segments always_ok "12" "0" (ARef 0)
                  AUndefined w))
     = [[("name", VStr "n"); ("etag", VStr "v1");
         ("parent", VObj [("id", VStr "0")])]]
  /\ heap (snd (Folders.delete join_segments always_ok "12" (ARef 0)
                  AUndefined w))
     = [[("name", VStr "n")]]
  /\ heap (snd (Folders.deletePermanently join_segments always_ok "12"
                  (ARef 0) AUndefined w))
     = [o].
Proof.
  pose proof (options_object_after_call join_segments always_ok "12" "0" 0
                [("name", VStr "n"); ("etag", VStr "v1")] AUndefined
                (mkWorld [[("name", VStr "n"); ("etag", VStr "v1")]] [])
                eq_refl) as [Hcopy [_ [Hdelete Hpermanent]]].
  split; [reflexivity|].
  split; [exact Hcopy|]. split; [exact Hdelete|exact Hpermanent].
Defined.

(** C4, as stated, fails for [deletePermanently]: called with the caller's
    [{etag: "v1"}], it sends the header and leaves that object unchanged. *)
Lemma deletePermanently_keeps_options_counterexample :
  let o := [("etag", VStr "v1")] in
  Folders.deletePermanently join_segments always_ok "12" (ARef 0) AUndefined
    (mkWorld [o] [])
  = (Resolved (VObj []),
     mkWorld [o]
       [mkCall DefaultHandler DELETE "/folders/12/trash" None None
          (Some (VObj [("If-Match", VStr "v1")])) AUndefined]).
Proof. reflexivity. Qed.

(** [deletePermanently] with a callback in the options position, and with
    [{etag: "v1"}]. *)
Lemma deletePermanently_request_witness :
  let o := [("etag", VStr "v1")] in
  let w := mkWorld [o] [] in
  heap w !! 0 = Some o
  /\ obj_get "etag" o = Some (VStr "v1")
  /\ truthy (VStr "v1") = true
  /\ Folders.deletePermanently join_segments always_ok "12"
       (AFunction "done") AUndefined w
     = (Resolved (VObj []),
        mkWorld [o; []]
          [mkCall DefaultHandler DELETE "/folders/12/trash" None None None
             (AFunction "done")])
  /\ Folders.deletePermanently join_segments always_ok "12" (ARef 0)
       AUndefined w
     = (Resolved (VObj []),
        mkWorld [o]
          [mkCall DefaultHandler DELETE "/folders/12/trash" None None
             (Some (VObj [("If-Match", VStr "v1")])) AUndefined]).
Proof.
  pose proof (deletePermanently_request join_segments always_ok "12" 0
                [("etag", VStr "v1")] "done" AUndefined
                (mkWorld [[("etag", VStr "v1")]] []) eq_refl)
    as [Hcallable [Hetag _]].
  split; [reflexivity|]. split; [reflexivity|]. split; [reflexivity|].
  split; [exact Hcallable|exact (Hetag (VStr "v1") eq_refl eq_refl)].
Defined.

(** C5, as stated, fails for options [{etag: ""}]: options has an [etag]
    key, yet the request carries no [If-Match] header. *)
Lemma deletePermanently_empty_etag_counterexample :
  let o := [("etag", VStr "")] in
  obj_has "etag" o = true
  /\ Folders.deletePermanently join_segments always_ok "12" (ARef 0)
       AUndefined (mkWorld [o] [])
     = (Resolved (VObj []),
        mkWorld [o]
          [mkCall DefaultHandler DELETE "/folders/12/trash" None None None
             AUndefined]).
Proof. split; reflexivity. Qed.

(** [copy] with [{name: "n"}], and with a callback in the options
    position. *)
Lemma copy_request_witness :
  let o := [("name", VStr "n")] in
  let w := mkWorld [o] [] in
  let parent := VObj [("id", VStr "0")] in
  heap w !! 0 = Some o
  /\ Folders.copy join_segments always_ok "12" "0" (ARef 0) AUndefined w
     = (Resolved (VObj []),
        mkWorld [[("name", VStr "n"); ("parent", parent)]]
          [mkCall DefaultHandler POST "/folders/12/copy" None
             (Some (VObj [("name", VStr "n"); ("parent", parent)])) None
             AUndefined])
  /\ Folders.copy join_segments always_ok "12" "0" (AFunction "done")
       AUndefined w
     = (Resolved (VObj []),
        mkWorld [o; [("parent", parent)]]
          [mkCall DefaultHandler POST "/folders/12/copy" None
             (Some (VObj [("parent", parent)])) None (AFunction "done")]).
Proof.
  pose proof (copy_request join_segments always_ok "12" "0" 0
                [("name", VStr "n")] "done" AUndefined
                (mkWorld [[("name", VStr "n")]] []) eq_refl)
    as [_ [Hcallable [Hobject _]]].
  split; [reflexivity|]. split; [exact Hobject|exact Hcallable].
Defined.

(** [restoreFromTrash] with [{parent_id: "5", name: "x"}]. *)
Lemma restoreFromTrash_request_witness :
  let o := [("parent_id", VStr "5"); ("name", VStr "x")] in
  let w := mkWorld [o] [] in
  let sent_body := [("name", VStr "x"); ("parent", VObj [("id", VStr "5")])] in
  heap w !! 0 = Some o
  /\ obj_get "parent_id" o = Some (VStr "5")
  /\ truthy (VStr "5") = true
  /\ Folders.restoreFromTrash join_segments always_ok "12" (ARef 0)
       AUndefined w
     = (Resolved (VObj []),
        mkWorld [sent_body]
          [mkCall DefaultHandler POST "/folders/12" None
             (Some (VObj sent_body)) None AUndefined]).
Proof.
  pose proof (restoreFromTrash_request join_segments always_ok "12" 0
                [("parent_id", VStr "5"); ("name", VStr "x")] AUndefined
                (mkWorld [[("parent_id", VStr "5"); ("name", VStr "x")]] [])
                eq_refl) as [Hrenamed _].
  split; [reflexivity|]. split; [reflexivity|]. split; [reflexivity|].
  exact (proj1 (Hrenamed (VStr "5") eq_refl eq_refl)).
Defined.

(** C9, as stated, fails for options [{parent_id: "", name: "x"}]: the
    options have a [parent_id] key, yet the body sent still has it and has
    no [parent]. *)
Lemma restoreFromTrash_empty_parent_id_counterexample :
  let o := [("parent_id", VStr ""); ("name", VStr "x")] in
  obj_has "parent_id" o = true
  /\ obj_has "parent" o = false
  /\ Folders.restoreFromTrash join_segments always_ok "12" (ARef 0)
       AUndefined (mkWorld [o] [])
     = (Resolved (VObj []),
        mkWorld [o]
          [mkCall DefaultHandler POST "/folders/12" None (Some (VObj o))
             None AUndefined]).
Proof. repeat split. Qed.

(** [applyWatermark] with [{imprint: "custom"}]. *)
Lemma applyWatermark_request_witness :
  let o := [("imprint", VStr "custom")] in
  let w := mkWorld [o] [] in
  heap w !! 0 = Some o
  /\ List.NoDup (obj_keys o)
  /\ Folders.applyWatermark join_segments always_ok "12" (ARef 0)
       AUndefined w
     = (Resolved (VObj []),
        mkWorld [o]
          [mkCall DefaultHandler PUT "/folders/12/watermark" None
             (Some (VObj [("watermark", VObj [("imprint", VStr "custom")])]))
             None AUndefined]).
Proof.
  assert (Hnd : List.NoDup (obj_keys [("imprint", VStr "custom")])).
  { constructor; [intros []|constructor]. }
  split; [reflexivity|]. split; [exact Hnd|].
  exact (proj1 (applyWatermark_request join_segments always_ok "12" 0
                  [("imprint", VStr "custom")] AUndefined
                  (mkWorld [[("imprint", VStr "custom")]] []) eq_refl Hnd)).
Defined.

(** [setMetadata] against a client that answers the POST with a 409: one
    PUT follows, with one patch entry per key; against a client that answers
    it with a 404: the error comes back and nothing follows. *)
Lemma setMetadata_calls_witness :
  let md := [("color", VStr "red"); ("size", VNum 2)] in
  let w := mkWorld [md] [] in
  let not_found := VObj [("statusCode", VNum 404)] in
  let add :=
    mkCall DefaultHandler POST "/folders/12/metadata/global/properties" None
      (Some (VObj md)) None AUndefined in
  let upd :=
    mkCall DefaultHandler PUT "/folders/12/metadata/global/properties" None
      (Some (VArr
         [VObj [("op", VStr "add"); ("path", VStr "/color");
                ("value", VStr "red")];
          VObj [("op", VStr "add"); ("path", VStr "/size");
                ("value", VNum 2)]]))
      (Some (VObj [("Content-Type", VStr "application/json-patch+json")]))
      AUndefined in
  heap w !! 0 = Some md
  /\ conflict_on_post [] add = Failed (VObj [("statusCode", VNum 409)])
  /\ Folders.setMetadata join_segments conflict_on_post "12" "global"
       "properties" (ARef 0) AUndefined w
     = (Resolved (VObj [("done", VBool true)]), mkWorld [md] [add; upd])
  /\ Folders.setMetadata join_segments (fail_on_post not_found) "12" "global"
       "properties" (ARef 0) AUndefined w
     = (Rejected (Thrown not_found), mkWorld [md] [add]).
Proof.
  pose proof (setMetadata_calls join_segments conflict_on_post "12" "global"
                "properties" 0 [("color", VStr "red"); ("size", VNum 2)]
                AUndefined
                (mkWorld [[("color", VStr "red"); ("size", VNum 2)]] [])
                eq_refl) as [_ [Hconflict _]].
  pose proof (setMetadata_calls join_segments
                (fail_on_post (VObj [("statusCode", VNum 404)]))
                "12" "global"
                "properties" 0 [("color", VStr "red"); ("size", VNum 2)]
                AUndefined
                (mkWorld [[("color", VStr "red"); ("size", VNum 2)]] [])
                eq_refl) as [_ [_ Hother]].
  split; [reflexivity|]. split; [reflexivity|]. split.
  - exact (Hconflict (VObj [("statusCode", VNum 409)]) eq_refl eq_refl).
  - apply (Hother (VObj [("statusCode", VNum 404)]) (VNum 404) eq_refl eq_refl).
    discriminate.
Defined.

(** [getWatermark] on a 200 response with body
    [{watermark: {imprint: "default"}}], and on a 404 response. *)
Lemma getWatermark_outcome_witness :
  let response :=
    VObj [("statusCode", VNum 200);
          ("body", VObj [("watermark", VObj [("imprint", VStr "default")])])] in
  let not_found := VObj [("statusCode", VNum 404); ("body", VNull)] in
  let w := mkWorld [] [] in
  let rq :=
    mkCall Raw GET "/folders/12/watermark" (Some VUndefined) None None
      AUndefined in
  deref (heap w) AUndefined = Some VUndefined
  /\ always_fulfil response (sent w) rq = Fulfilled response
  /\ Folders.getWatermark join_segments sample_unexpected_response
       (always_fulfil response) "12" AUndefined AUndefined w
     = (Resolved (VObj [("imprint", VStr "default")]), mkWorld [] [rq])
  /\ Folders.getWatermark join_segments sample_unexpected_response
       (always_fulfil not_found) "12" AUndefined AUndefined w
     = (Rejected (Thrown (sample_unexpected_response not_found)),
        mkWorld [] [rq]).
Proof.
  split; [reflexivity|]. split; [reflexivity|]. split.
  - exact (proj1 (getWatermark_outcome join_segments
                    sample_unexpected_response
                    (always_fulfil
                       (VObj [("statusCode", VNum 200);
                              ("body",
                               VObj [("watermark",
                                      VObj [("imprint", VStr "default")])])]))
                    "12" AUndefined AUndefined VUndefined _ (mkWorld [] [])
                    eq_refl eq_refl)
             _ _ eq_refl eq_refl eq_refl).
  - apply (proj2 (getWatermark_outcome join_segments
                    sample_unexpected_response
                    (always_fulfil
                       (VObj [("statusCode", VNum 404); ("body", VNull)]))
                    "12" AUndefined AUndefined VUndefined _ (mkWorld [] [])
                    eq_refl eq_refl)
             (VNum 404) eq_refl).
    discriminate.
Defined.

(** The collection methods on a folder in collections "1" and "2". *)
Lemma collections_update_witness :
  let folder :=
    [("collections",
      VArr [VObj [("id", VStr "1"); ("name", VStr "Favorites")];
            VObj [("id", VStr "2")]])] in
  let client := always_fulfil (VObj folder) in
  let fetch :=
    mkCall DefaultHandler GET "/folders/12"
      (Some (VObj [("fields", VStr "collections")])) None None AUndefined in
  let save cs :=
    mkCall DefaultHandler PUT "/folders/12" None
      (Some (VObj [("collections", VArr cs)])) None AUndefined in
  let added :=
    [VObj [("id", VStr "1")]; VObj [("id", VStr "2")];
     VObj [("id", VStr "3")]] in
  client [] fetch = Fulfilled (VObj folder)
  /\ Folders.addToCollection join_segments client "12" "3" AUndefined
       (mkWorld [] [])
     = (Resolved (VObj folder),
        mkWorld
          [[("fields", VStr "collections")]; [("collections", VArr added)]]
          [fetch; save added]).
Proof.
  split; [reflexivity|].
  exact (proj1 (collections_update join_segments
                  (always_fulfil
                     (VObj [("collections",
                             VArr [VObj [("id", VStr "1");
                                         ("name", VStr "Favorites")];
                                   VObj [("id", VStr "2")]])]))
                  "12" "3" AUndefined _
                  [[("id", VStr "1"); ("name", VStr "Favorites")];
                   [("id", VStr "2")]]
                  (mkWorld [] []) eq_refl eq_refl)).
Defined.

(** The collection methods on a folder fetched without a [collections]
    field. *)
Lemma collections_missing_witness :
  let folder := [("id", VStr "12")] in
  let client := always_fulfil (VObj folder) in
  let fetch :=
    mkCall DefaultHandler GET "/folders/12"
      (Some (VObj [("fields", VStr "collections")])) None None AUndefined in
  let save cs :=
    mkCall DefaultHandler PUT "/folders/12" None
      (Some (VObj [("collections", VArr cs)])) None AUndefined in
  client [] fetch = Fulfilled (VObj folder)
  /\ obj_get "collections" folder = None
  /\ Folders.addToCollection join_segments client "12" "3" AUndefined
       (mkWorld [] [])
     = (Resolved (VObj folder),
        mkWorld
          [[("fields", VStr "collections")];
           [("collections", VArr [VObj [("id", VStr "3")]])]]
          [fetch; save [VObj [("id", VStr "3")]]])
  /\ Folders.removeFromCollection join_segments client "12" "3" AUndefined
       (mkWorld [] [])
     = (Resolved (VObj folder),
        mkWorld
          [[("fields", VStr "collections")]; [("collections", VArr [])]]
          [fetch; save []]).
Proof.
  pose proof (collections_missing join_segments
                (always_fulfil (VObj [("id", VStr "12")]))
                "12" "3" AUndefined [("id", VStr "12")] (mkWorld [] [])
                eq_refl (or_introl eq_refl)) as [Hadd Hremove].
  split; [reflexivity|]. split; [reflexivity|].
  split; [exact Hadd|exact Hremove].
Defined.

(** ** The further properties at concrete inputs *)

(** A fetch answered with a 503. *)
Lemma collections_fetch_failure_witness :
  let err := VObj [("statusCode", VNum 503)] in
  let query := [("fields", VStr "collections")] in
  let fetch :=
    mkCall DefaultHandler GET "/folders/12" (Some (VObj query)) None None
      AUndefined in
  always_fail err [] fetch = Failed err
  /\ Folders.addToCollection join_segments (always_fail err) "12" "3"
       AUndefined (mkWorld [] [])
     = (Rejected (Thrown err), mkWorld [query] [fetch]).
Proof.
  split; [reflexivity|].
  exact (proj1 (collections_fetch_failure join_segments
                  (always_fail (VObj [("statusCode", VNum 503)]))
                  "12" "3" AUndefined _ (mkWorld [] []) eq_refl)).
Defined.

(** A folder whose [collections] is a string. *)
Lemma collections_malformed_witness :
  let data := VObj [("collections", VStr "favorites")] in
  let query := [("fields", VStr "collections")] in
  let fetch :=
    mkCall DefaultHandler GET "/folders/12" (Some (VObj query)) None None
      AUndefined in
  always_fulfil data [] fetch = Fulfilled data
  /\ Folders.removeFromCollection join_segments (always_fulfil data) "12" "3"
       AUndefined (mkWorld [] [])
     = (Rejected TypeError, mkWorld [query] [fetch]).
Proof.
  split; [reflexivity|].
  refine (proj2 (collections_malformed join_segments
                   (always_fulfil (VObj [("collections", VStr "favorites")]))
                   "12" "3" AUndefined _ (mkWorld [] []) eq_refl _)).
  right. left. exists (VStr "favorites").
  split; [reflexivity|]. split; [reflexivity|]. intros elems. discriminate.
Defined.

(** A folder in collections "1" and "2", and the target "2". *)
Lemma collections_membership_witness :
  let folder :=
    [("collections",
      VArr [VObj [("id", VStr "1"); ("name", VStr "Favorites")];
            VObj [("id", VStr "2")]])] in
  let client := always_fulfil (VObj folder) in
  let query := [("fields", VStr "collections")] in
  let fetch :=
    mkCall DefaultHandler GET "/folders/12" (Some (VObj query)) None None
      AUndefined in
  let save cs :=
    mkCall DefaultHandler PUT "/folders/12" None
      (Some (VObj [("collections", VArr cs)])) None AUndefined in
  let fetched_then_saved cs :=
    (Resolved (VObj folder) : outcome value,
     mkWorld [query; [("collections", VArr cs)]] [fetch; save cs]) in
  client [] fetch = Fulfilled (VObj folder)
  /\ exists added removed,
       Folders.addToCollection join_segments client "12" "2" AUndefined
         (mkWorld [] [])
         = fetched_then_saved added
       /\ Folders.removeFromCollection join_segments client "12" "2" AUndefined
            (mkWorld [] [])
          = fetched_then_saved removed
       /\ existsb (has_id "2") added = true
       /\ existsb (has_id "2") removed = false
       /\ List.filter (fun v => negb (has_id "2" v)) added = removed.
Proof.
  split; [reflexivity|].
  exact (collections_membership join_segments
           (always_fulfil
              (VObj [("collections",
                      VArr [VObj [("id", VStr "1");
                                  ("name", VStr "Favorites")];
                            VObj [("id", VStr "2")]])]))
           "12" "2" AUndefined _
           [[("id", VStr "1"); ("name", VStr "Favorites")];
            [("id", VStr "2")]]
           (mkWorld [] []) eq_refl eq_refl).
Defined.

Lemma collections_distinct_witness :
  let folder :=
    [("collections",
      VArr [VObj [("id", VStr "1")]; VObj [("id", VStr "2")]])] in
  let client := always_fulfil (VObj folder) in
  let query := [("fields", VStr "collections")] in
  let fetch :=
    mkCall DefaultHandler GET "/folders/12" (Some (VObj query)) None None
      AUndefined in
  let save cs :=
    mkCall DefaultHandler PUT "/folders/12" None
      (Some (VObj [("collections", VArr cs)])) None AUndefined in
  let fetched_then_saved cs :=
    (Resolved (VObj folder) : outcome value,
     mkWorld [query; [("collections", VArr cs)]] [fetch; save cs]) in
  client [] fetch = Fulfilled (VObj folder)
  /\ List.NoDup [VStr "1"; VStr "2"]
  /\ exists added removed,
       Folders.addToCollection join_segments client "12" "3" AUndefined
         (mkWorld [] [])
         = fetched_then_saved added
       /\ Folders.removeFromCollection join_segments client "12" "3" AUndefined
            (mkWorld [] [])
          = fetched_then_saved removed
       /\ List.NoDup added
       /\ List.NoDup removed.
Proof.
  assert (Hnd : List.NoDup [VStr "1"; VStr "2"]).
  { constructor; [intros [H|[]]; discriminate|].
    constructor; [intros []|constructor]. }
  split; [reflexivity|]. split; [exact Hnd|].
  exact (collections_distinct join_segments
           (always_fulfil
              (VObj [("collections",
                      VArr [VObj [("id", VStr "1")];
                            VObj [("id", VStr "2")]])]))
           "12" "3" AUndefined _
           [[("id", VStr "1")]; [("id", VStr "2")]]
           (mkWorld [] []) eq_refl eq_refl Hnd).
Defined.

(** Removing "2" from what adding "2" to [[{id:"1"}]] sends. *)
Lemma collections_round_trip_witness :
  let one := VObj [("id", VStr "1")] in
  let two := VObj [("id", VStr "2")] in
  let folder := [("collections", VArr [one; two])] in
  let client := always_fulfil (VObj folder) in
  let query := [("fields", VStr "collections")] in
  let fetch :=
    mkCall DefaultHandler GET "/folders/12" (Some (VObj query)) None None
      AUndefined in
  let save cs :=
    mkCall DefaultHandler PUT "/folders/12" None
      (Some (VObj [("collections", VArr cs)])) None AUndefined in
  client [] fetch = Fulfilled (VObj folder)
  /\ Folders.removeFromCollection join_segments client "12" "2" AUndefined
       (mkWorld [] [])
     = (Resolved (VObj folder),
        mkWorld [query; [("collections", VArr [one])]] [fetch; save [one]]).
Proof.
  split; [reflexivity|].
  exact (proj1 (proj1 (collections_round_trip join_segments
                         (always_fulfil
                            (VObj [("collections",
                                    VArr [VObj [("id", VStr "1")];
                                          VObj [("id", VStr "2")]])]))
                         "12" "2" AUndefined _ [VStr "1"] (mkWorld [] [])
                         eq_refl)
                 eq_refl)).
Defined.

(** A folder whose collection ids are numbers, and the target "1". *)
Lemma collections_non_string_ids_witness :
  let folder :=
    [("collections", VArr [VObj [("id", VNum 1)]; VObj [("id", VNum 2)]])] in
  let client := always_fulfil (VObj folder) in
  let query := [("fields", VStr "collections")] in
  let fetch :=
    mkCall DefaultHandler GET "/folders/12" (Some (VObj query)) None None
      AUndefined in
  let save cs :=
    mkCall DefaultHandler PUT "/folders/12" None
      (Some (VObj [("collections", VArr cs)])) None AUndefined in
  let added :=
    [VObj [("id", VNum 1)]; VObj [("id", VNum 2)]; VObj [("id", VStr "1")]] in
  client [] fetch = Fulfilled (VObj folder)
  /\ Folders.addToCollection join_segments client "12" "1" AUndefined
       (mkWorld [] [])
     = (Resolved (VObj folder),
        mkWorld [query; [("collections", VArr added)]] [fetch; save added]).
Proof.
  split; [reflexivity|].
  refine (proj1 (collections_non_string_ids join_segments
                   (always_fulfil
                      (VObj [("collections",
                              VArr [VObj [("id", VNum 1)];
                                    VObj [("id", VNum 2)]])]))
                   "12" "1" AUndefined _
                   [[("id", VNum 1)]; [("id", VNum 2)]]
                   (mkWorld [] []) eq_refl eq_refl _)).
  intros i s [<-|[<-|[]]]; discriminate.
Defined.

(** [update] twice with [{name: "n", etag: "v1"}]. *)
Lemma etag_used_once_witness :
  let o := [("name", VStr "n"); ("etag", VStr "v1")] in
  let w := mkWorld [o] [] in
  let put hd :=
    mkCall DefaultHandler PUT "/folders/12" None
      (Some (VObj [("name", VStr "n")])) hd AUndefined in
  let after :=
    mkWorld [[("name", VStr "n")]]
      [put (Some (VObj [("If-Match", VStr "v1")]))] in
  heap w !! 0 = Some o
  /\ truthy (obj_read "etag" o) = true
  /\ Folders.update join_segments always_ok "12" (ARef 0) AUndefined after
     = (Resolved (VObj []),
        mkWorld [[("name", VStr "n")]]
          [put (Some (VObj [("If-Match", VStr "v1")])); put None]).
Proof.
  pose proof (etag_used_once join_segments always_ok "12" 0
                [("name", VStr "n"); ("etag", VStr "v1")] AUndefined
                (mkWorld [[("name", VStr "n"); ("etag", VStr "v1")]] [])
                eq_refl eq_refl) as [_ [_ [Hagain _]]].
  split; [reflexivity|]. split; [reflexivity|]. exact Hagain.
Defined.

Lemma deletePermanently_repeatable_witness :
  let o := [("etag", VStr "v1")] in
  let w := mkWorld [o] [] in
  let first :=
    Folders.deletePermanently join_segments always_ok "12" (ARef 0)
      AUndefined w in
  let second :=
    Folders.deletePermanently join_segments always_ok "12" (ARef 0)
      AUndefined (snd first) in
  heap w !! 0 = Some o
  /\ heap (snd first) = [o]
  /\ heap (snd second) = [o]
  /\ exists c,
       sent (snd first) = [c]
       /\ sent (snd second) = [c; c]
       /\ call_headers c = Some (VObj [("If-Match", VStr "v1")]).
Proof.
  split; [reflexivity|].
  exact (deletePermanently_repeatable join_segments always_ok "12" 0
           [("etag", VStr "v1")] AUndefined
           (mkWorld [[("etag", VStr "v1")]] []) eq_refl).
Defined.

(** [copy] to "7" after [copy] to "0", with the same [{etag: "v1"}]. *)
Lemma copy_again_witness :
  let o := [("etag", VStr "v1")] in
  let w := mkWorld [o] [] in
  let post b :=
    mkCall DefaultHandler POST "/folders/12/copy" None (Some (VObj b)) None
      AUndefined in
  let body id := [("etag", VStr "v1"); ("parent", VObj [("id", VStr id)])] in
  heap w !! 0 = Some o
  /\ Folders.copy join_segments always_ok "12" "7" (ARef 0) AUndefined
       (mkWorld [body "0"] [post (body "0")])
     = (Resolved (VObj []),
        mkWorld [body "7"] [post (body "0"); post (body "7")]).
Proof.
  pose proof (copy_again join_segments always_ok "12" "0" "7" 0
                [("etag", VStr "v1")] AUndefined
                (mkWorld [[("etag", VStr "v1")]] []) eq_refl)
    as [_ [_ Hagain]].
  split; [reflexivity|]. exact Hagain.
Defined.

Lemma restoreFromTrash_again_witness :
  let o := [("parent_id", VStr "5"); ("name", VStr "x")] in
  let w := mkWorld [o] [] in
  let renamed := [("name", VStr "x"); ("parent", VObj [("id", VStr "5")])] in
  let post :=
    mkCall DefaultHandler POST "/folders/12" None (Some (VObj renamed)) None
      AUndefined in
  heap w !! 0 = Some o
  /\ truthy (obj_read "parent_id" o) = true
  /\ Folders.restoreFromTrash join_segments always_ok "12" (ARef 0)
       AUndefined (mkWorld [renamed] [post])
     = (Resolved (VObj []), mkWorld [renamed] [post; post]).
Proof.
  pose proof (restoreFromTrash_again join_segments always_ok "12" 0
                [("parent_id", VStr "5"); ("name", VStr "x")] AUndefined
                (mkWorld [[("parent_id", VStr "5"); ("name", VStr "x")]] [])
                eq_refl eq_refl) as [_ Hagain].
  split; [reflexivity|]. split; [reflexivity|]. exact Hagain.
Defined.

(** [getItems] with [{limit: 10, etag: "v1"}]. *)
Lemma options_forwarded_as_query_witness :
  let o := [("limit", VNum 10); ("etag", VStr "v1")] in
  let w := mkWorld [o] [] in
  heap w !! 0 = Some o
  /\ Folders.getItems join_segments always_ok "12" (ARef 0) AUndefined w
     = (Resolved (VObj []),
        mkWorld [o]
          [mkCall DefaultHandler GET "/folders/12/items" (Some (VObj o))
             None None AUndefined]).
Proof.
  pose proof (options_forwarded_as_query join_segments
                sample_unexpected_response always_ok "12" 0
                [("limit", VNum 10); ("etag", VStr "v1")] AUndefined
                (mkWorld [[("limit", VNum 10); ("etag", VStr "v1")]] [])
                eq_refl) as [_ [Hitems _]].
  split; [reflexivity|]. exact Hitems.
Defined.

Lemma setMetadata_bounded_witness :
  let md := [("color", VStr "red")] in
  let w := mkWorld [md] [] in
  heap w !! 0 = Some md
  /\ heap (snd (Folders.setMetadata join_segments conflict_on_post "12"
                  "global" "properties" (ARef 0) AUndefined w))
     = [md].
Proof.
  split; [reflexivity|].
  exact (proj1 (setMetadata_bounded join_segments conflict_on_post "12"
                  "global" "properties" 0 [("color", VStr "red")] AUndefined
                  (mkWorld [[("color", VStr "red")]] []) eq_refl)).
Defined.

Lemma setMetadata_nullish_error_witness :
  let md := [("color", VStr "red")] in
  let w := mkWorld [md] [] in
  let add :=
    mkCall DefaultHandler POST "/folders/12/metadata/global/properties" None
      (Some (VObj md)) None AUndefined in
  heap w !! 0 = Some md
  /\ always_fail VNull [] add = Failed VNull
  /\ nullish VNull = true
  /\ Folders.setMetadata join_segments (always_fail VNull) "12" "global"
       "properties" (ARef 0) AUndefined w
     = (Rejected TypeError, mkWorld [md] [add]).
Proof.
  split; [reflexivity|]. split; [reflexivity|]. split; [reflexivity|].
  exact (setMetadata_nullish_error join_segments (always_fail VNull) "12"
           "global" "properties" 0 [("color", VStr "red")] AUndefined VNull
           (mkWorld [[("color", VStr "red")]] []) eq_refl eq_refl eq_refl).
Defined.

Lemma getWatermark_client_failure_witness :
  let err := VObj [("code", VStr "ECONNRESET")] in
  let w := mkWorld [] [] in
  let rq :=
    mkCall Raw GET "/folders/12/watermark" (Some VUndefined) None None
      AUndefined in
  deref (heap w) AUndefined = Some VUndefined
  /\ always_fail err [] rq = Failed err
  /\ Folders.getWatermark join_segments sample_unexpected_response
       (always_fail err) "12" AUndefined (AFunction "done") w
     = (Rejected (Thrown err), mkWorld [] [rq]).
Proof.
  split; [reflexivity|]. split; [reflexivity|].
  exact (getWatermark_client_failure join_segments sample_unexpected_response
           (always_fail (VObj [("code", VStr "ECONNRESET")])) "12"
           AUndefined (AFunction "done") VUndefined _ (mkWorld [] [])
           eq_refl eq_refl).
Defined.

(** A 200 response without a body. *)
Lemma getWatermark_malformed_witness :
  let response := VObj [("statusCode", VNum 200)] in
  let w := mkWorld [] [] in
  let rq :=
    mkCall Raw GET "/folders/12/watermark" (Some VUndefined) None None
      AUndefined in
  deref (heap w) AUndefined = Some VUndefined
  /\ always_fulfil response [] rq = Fulfilled response
  /\ Folders.getWatermark join_segments sample_unexpected_response
       (always_fulfil response) "12" AUndefined AUndefined w
     = (Rejected TypeError, mkWorld [] [rq]).
Proof.
  split; [reflexivity|]. split; [reflexivity|].
  refine (getWatermark_malformed join_segments sample_unexpected_response
            (always_fulfil (VObj [("statusCode", VNum 200)])) "12"
            AUndefined AUndefined VUndefined _ (mkWorld [] [])
            eq_refl eq_refl _).
  right. exists VUndefined.
  split; [reflexivity|]. split; reflexivity.
Defined.

(** [applyWatermark] with [{imprint: "custom", opacity: 3}]. *)
Lemma applyWatermark_keys_witness :
  let o := [("imprint", VStr "custom"); ("opacity", VNum 3)] in
  let w := mkWorld [o] [] in
  heap w !! 0 = Some o
  /\ Folders.applyWatermark join_segments always_ok "12" (ARef 0)
       AUndefined w
     = (Resolved (VObj []),
        mkWorld [o]
          [mkCall DefaultHandler PUT "/folders/12/watermark" None
             (Some (VObj [("watermark", VObj o)])) None AUndefined]).
Proof.
  split; [reflexivity|].
  exact (proj1 (applyWatermark_keys join_segments always_ok "12" 0
                  [("imprint", VStr "custom"); ("opacity", VNum 3)]
                  AUndefined
                  (mkWorld [[("imprint", VStr "custom");
                             ("opacity", VNum 3)]] [])
                  eq_refl)).
Defined.

Lemma addMetadata_no_recovery_witness :
  let data := [("color", VStr "red")] in
  let w := mkWorld [data] [] in
  let err := VObj [("statusCode", VNum 409)] in
  let add :=
    mkCall DefaultHandler POST "/folders/12/metadata/global/properties" None
      (Some (VObj data)) None (AFunction "done") in
  heap w !! 0 = Some data
  /\ conflict_on_post [] add = Failed err
  /\ Folders.addMetadata join_segments conflict_on_post "12" "global"
       "properties" (ARef 0) (AFunction "done") w
     = (Rejected (Thrown err), mkWorld [data] [add]).
Proof.
  split; [reflexivity|]. split; [reflexivity|].
  exact (addMetadata_no_recovery join_segments conflict_on_post "12" "global"
           "properties" 0 [("color", VStr "red")] (AFunction "done") _
           (mkWorld [[("color", VStr "red")]] []) eq_refl eq_refl).
Defined.

Lemma setMetadata_missing_metadata_witness :
  let err := VObj [("statusCode", VNum 409)] in
  let add :=
    mkCall DefaultHandler POST "/folders/12/metadata/global/properties" None
      (Some VUndefined) None AUndefined in
  get_prop err "statusCode" = inr (VNum 409)
  /\ conflict_on_post [] add = Failed err
  /\ Folders.setMetadata join_segments conflict_on_post "12" "global"
       "properties" AUndefined AUndefined (mkWorld [] [])
     = (Rejected TypeError, mkWorld [] [add]).
Proof.
  split; [reflexivity|]. split; [reflexivity|].
  exact (proj1 (setMetadata_missing_metadata join_segments conflict_on_post
                  "12" "global" "properties" AUndefined
                  (VObj [("statusCode", VNum 409)]) (mkWorld [] []) eq_refl)
           eq_refl).
Defined.
